(** * The A2C update step of cpprl (src/algorithms/a2c.cpp)

    A shallow embedding of [A2C::A2C] and [A2C::update] together with the
    part of libtorch the body of [update] calls: sizes, [slice], [view],
    [operator[]], the element-wise arithmetic, [pow], [mean], [detach],
    [item], [backward], and the optimizer's [zero_grad] and [step].

    Scalars.  The code computes in [float].  The development is parametric
    in the scalar type and its operations ([FloatOps]) and assumes no
    algebraic law about them, so every statement proved in the generic
    part holds of IEEE arithmetic as it holds of exact arithmetic.  The
    examples at the end instantiate the scalars with the rationals, on
    inputs whose values are small integers.

    Tensors.  A tensor is its sizes and its elements in row-major order
    (all tensors of the storage are contiguous, and [slice] along dimension
    0 and [operator[]] keep them so), together with its autograd node.

    Autograd.  The graph built inside [update] is followed down to the
    tensors returned by [Policy::evaluate_actions]: these are its leaves,
    numbered by their position in the returned vector.  The node of a tensor
    maps the gradient flowing into the tensor to the list of (leaf, gradient)
    contributions it sends to the leaves.  What lies below the leaves belongs
    to the policy, which hands back a pullback from such contributions to the
    [.grad] of its parameters.

    Storage.  Tensors are handles on storage, and [optimizer->step()]
    (line 64) writes the parameters in place.  All that [update] reads
    after the step are the three scalars it returns (lines 66-68).  The
    value loss and the action loss are results of [mean], in storage of their
    own.  The entropy is the third tensor the policy returned, as it is: when
    it shares the storage of a parameter it holds the stepped parameter by
    then.  An evaluation therefore says which of the returned tensors share
    the storage of the parameters and where ([shared]), and line 68 reads
    the tensor through the parameters of the world it runs in ([now]). *)

From Stdlib Require Import String ZArith List Bool Lia QArith.
Import ListNotations.
Open Scope Z_scope.

Set Implicit Arguments.

(** ** Outcomes of a computation *)

(** [Throws]: libtorch raises [c10::Error].  [Unknown]: the C++ behaviour is
    undefined (an index past the end of a vector) or the library takes a path
    this development does not follow (broadcasting between different sizes,
    [slice] along a dimension other than 0). *)
Inductive outcome (A : Type) : Type :=
| Ok (a : A)
| Throws
| Unknown.

Arguments Ok {A} a.
Arguments Throws {A}.
Arguments Unknown {A}.

Definition obind {A B : Type} (m : outcome A) (k : A -> outcome B) : outcome B :=
  match m with
  | Ok a => k a
  | Throws => Throws
  | Unknown => Unknown
  end.

Declare Scope outcome_scope.
Delimit Scope outcome_scope with outcome.
Notation "x <~ m ;; k" := (obind m (fun x => k))
  (at level 61, m at next level, right associativity) : outcome_scope.

(** ** Scalars *)

Class FloatOps (F : Type) : Type := {
  fadd : F -> F -> F;
  fsub : F -> F -> F;
  fmul : F -> F -> F;
  fdiv : F -> F -> F;
  fneg : F -> F;
  (** [x.pow(n)] for an integer exponent *)
  fpow : F -> Z -> F;
  (** the library's sum reduction; its order of summation is its own *)
  fsum : list F -> F;
  (** a literal, or an integer converted to a scalar *)
  of_Q : Q -> F
}.

(** ** int64_t and int *)

Definition int_min : Z := - 2 ^ 31.
Definition int_modulus : Z := 2 ^ 32.

(** [int n = x] for an [int64_t] x: the value is reduced modulo 2^32 into the
    range of [int]. *)
Definition to_int (x : Z) : Z := (x - int_min) mod int_modulus + int_min.

(** [IntArrayRef::operator[]]: no bounds check. *)
Definition array_ref_get (s : list Z) (i : nat) : outcome Z :=
  match nth_error s i with
  | Some d => Ok d
  | None => Unknown
  end.

Definition numel (s : list Z) : Z := fold_right Z.mul 1 s.

Fixpoint sizes_eqb (a b : list Z) : bool :=
  match a, b with
  | [], [] => true
  | x :: a', y :: b' => (x =? y) && sizes_eqb a' b'
  | _, _ => false
  end.

Fixpoint zip_with {A B C : Type} (f : A -> B -> C) (a : list A) (b : list B) : list C :=
  match a, b with
  | x :: a', y :: b' => f x y :: zip_with f a' b'
  | _, _ => []
  end.

Section Torch.

Context {F : Type} {ops : FloatOps F}.

Definition of_Z (n : Z) : F := of_Q (inject_Z n).
Definition fzero : F := of_Z 0.
Definition fone : F := of_Z 1.

Definition zeros (n : Z) : list F := repeat fzero (Z.to_nat n).

(** ** Tensors *)

(** The gradient contributions sent to the leaves: (position of the leaf in
    the vector returned by the policy, gradient with respect to it). *)
Definition cotangents : Type := list (nat * list F).

Record Tensor : Type := mkTensor {
  sizes : list Z;
  data : list F;
  (** [None]: the tensor does not require grad *)
  grad_fn : option (list F -> cotangents)
}.

Definition requires_grad (t : Tensor) : bool :=
  match grad_fn t with Some _ => true | None => false end.

(** The contributions of the gradient [u] flowing into [t]. *)
Definition back (t : Tensor) (u : list F) : cotangents :=
  match grad_fn t with
  | Some f => f u
  | None => []
  end.

Definition node1 (a : Tensor) (fa : list F -> list F) : option (list F -> cotangents) :=
  match grad_fn a with
  | Some f => Some (fun u => f (fa u))
  | None => None
  end.

Definition node2 (a b : Tensor) (fa fb : list F -> list F)
  : option (list F -> cotangents) :=
  if requires_grad a || requires_grad b
  then Some (fun u => back a (fa u) ++ back b (fb u))
  else None.

(** [t.size(dim)] *)
Definition size (t : Tensor) (dim : Z) : outcome Z :=
  let ndim := Z.of_nat (length (sizes t)) in
  if (dim <? - ndim) || (ndim <=? dim) then Throws
  else array_ref_get (sizes t) (Z.to_nat (if dim <? 0 then dim + ndim else dim)).

(** [t.slice(dim, start, end)] with step 1, along dimension 0. *)
Definition slice (t : Tensor) (dim start end_ : Z) : outcome Tensor :=
  match sizes t with
  | [] => Throws
  | n :: rest =>
    if negb (dim =? 0) then Unknown
    else
      let start := if start <? 0 then start + n else start in
      let end_ := if end_ <? 0 then end_ + n else end_ in
      let start := if start <? 0 then 0 else if n <=? start then n else start in
      let end_ := if end_ <? start then start else if n <=? end_ then n else end_ in
      let len := end_ - start in
      let stride := numel rest in
      Ok {| sizes := len :: rest;
            data := firstn (Z.to_nat (len * stride))
                      (skipn (Z.to_nat (start * stride)) (data t));
            grad_fn := node1 t (fun u => zeros (start * stride) ++ u
                                          ++ zeros ((n - end_) * stride)) |}
  end.

(** [t[index]], that is [t.select(0, index)]. *)
Definition index0 (t : Tensor) (index : Z) : outcome Tensor :=
  match sizes t with
  | [] => Throws
  | n :: rest =>
    if (index <? - n) || (n <=? index) then Throws
    else
      let index := if index <? 0 then index + n else index in
      let stride := numel rest in
      Ok {| sizes := rest;
            data := firstn (Z.to_nat stride)
                      (skipn (Z.to_nat (index * stride)) (data t));
            grad_fn := node1 t (fun u => zeros (index * stride) ++ u
                                          ++ zeros ((n - index - 1) * stride)) |}
  end.

(** The sizes a [view] to [shape] gives a tensor of [n] elements: one entry
    of [shape] may be -1 and is inferred. *)
Definition infer_size (shape : list Z) (n : Z) : outcome (list Z) :=
  if existsb (fun d => d <? -1) shape then Throws
  else
    let newsize := numel (filter (fun d => negb (d =? -1)) shape) in
    match count_occ Z.eq_dec shape (-1) with
    | O => if n =? newsize then Ok shape else Throws
    | S O =>
      if (0 <? newsize) && (n mod newsize =? 0)
      then Ok (map (fun d => if d =? -1 then n / newsize else d) shape)
      else Throws
    | _ => Throws
    end.

(** [t.view(shape)] of a contiguous tensor: the elements keep their order. *)
Definition view (t : Tensor) (shape : list Z) : outcome Tensor :=
  (s <~ infer_size shape (numel (sizes t)) ;;
   Ok {| sizes := s; data := data t; grad_fn := grad_fn t |})%outcome.

(** An element-wise operation on two tensors of the same sizes. *)
Definition pointwise (f : F -> F -> F) (fa fb : list F -> list F) (a b : Tensor)
  : outcome Tensor :=
  if sizes_eqb (sizes a) (sizes b)
  then Ok {| sizes := sizes a;
             data := zip_with f (data a) (data b);
             grad_fn := node2 a b fa fb |}
  else Unknown.

(** [a + b], [a - b], [a * b] *)
Definition add (a b : Tensor) : outcome Tensor :=
  pointwise fadd (fun u => u) (fun u => u) a b.

Definition sub (a b : Tensor) : outcome Tensor :=
  pointwise fsub (fun u => u) (map fneg) a b.

Definition mul (a b : Tensor) : outcome Tensor :=
  pointwise fmul (fun u => zip_with fmul u (data b))
                 (fun u => zip_with fmul u (data a)) a b.

(** [a * c] for a scalar [c] *)
Definition mul_scalar (a : Tensor) (c : F) : Tensor :=
  {| sizes := sizes a;
     data := map (fun x => fmul x c) (data a);
     grad_fn := node1 a (map (fun g => fmul g c)) |}.

(** [-a] *)
Definition neg (a : Tensor) : Tensor :=
  {| sizes := sizes a;
     data := map fneg (data a);
     grad_fn := node1 a (map fneg) |}.

(** [a.pow(n)]; its derivative is [n * a.pow(n - 1)] *)
Definition pow (a : Tensor) (n : Z) : Tensor :=
  {| sizes := sizes a;
     data := map (fun x => fpow x n) (data a);
     grad_fn := node1 a (fun u =>
       zip_with fmul u (map (fun x => fmul (of_Z n) (fpow x (n - 1))) (data a))) |}.

(** [a.mean()]: a 0-dimensional tensor, the sum divided by the number of
    elements; the gradient is spread evenly. *)
Definition mean (a : Tensor) : Tensor :=
  let n := numel (sizes a) in
  {| sizes := [];
     data := [fdiv (fsum (data a)) (of_Z n)];
     grad_fn := node1 a (fun u =>
       match u with
       | g :: _ => repeat (fdiv g (of_Z n)) (Z.to_nat n)
       | [] => []
       end) |}.

(** [a.detach()]: the same elements, cut off from the graph. *)
Definition detach (a : Tensor) : Tensor :=
  {| sizes := sizes a; data := data a; grad_fn := None |}.

(** [a.item().toFloat()]: defined for a tensor of one element. *)
Definition item (a : Tensor) : outcome F :=
  match data a with
  | [x] => Ok x
  | _ => Throws
  end.

(** ** The rollout storage *)

(** The tensors [update] reaches through the getters of [RolloutStorage]. *)
Record RolloutStorage : Type := {
  observations : Tensor;
  hidden_states : Tensor;
  actions : Tensor;
  rewards : Tensor;
  masks : Tensor;
  returns : Tensor
}.

(** ** The policy *)

(** What a call of [evaluate_actions] gives: the sizes and elements of the
    tensors of the returned vector, and the pullback of the graph below them,
    which adds to the [.grad] of the parameters what the contributions to
    the returned tensors induce. *)
Record Evaluation : Type := {
  outputs : list (list Z * list F);
  pullback : cotangents -> list F -> list F;
  (** a returned tensor that shares its storage with the parameters: for
      the tensor at this position, the places in the flattened parameters
      where its elements lie; [None] for a tensor with storage of its own *)
  shared : nat -> option (list nat)
}.

(** [Policy] is a handle on a network; the parameters it evaluates with are
    the current ones, passed as the first argument. *)
Record Policy : Type := {
  get_hidden_size : Z;
  evaluate_actions :
    list F -> Tensor -> Tensor -> Tensor -> Tensor -> outcome Evaluation
}.

(** The [i]-th tensor of the returned vector, as a leaf of the graph. *)
Definition leaf (i : nat) (o : list Z * list F) : Tensor :=
  {| sizes := fst o; data := snd o; grad_fn := Some (fun u => [(i, u)]) |}.

Definition leaves (outs : list (list Z * list F)) : list Tensor :=
  map (fun io => leaf (fst io) (snd io)) (combine (seq 0 (length outs)) outs).

(** [std::vector::operator[]]: no bounds check. *)
Definition vector_get {A : Type} (v : list A) (i : nat) : outcome A :=
  match nth_error v i with
  | Some x => Ok x
  | None => Unknown
  end.

(** [std::vector<int64_t>(s.begin() + 2, s.end())] *)
Definition from_third (s : list Z) : outcome (list Z) :=
  match s with
  | _ :: _ :: tl => Ok tl
  | _ => Unknown
  end.

(** ** The optimizer *)

Record RMSpropOptions : Type := {
  learning_rate : F;
  eps : F;
  alpha : F
}.

(** The buffers of [torch::optim::RMSprop] and its update rule are the
    library's: from the options, the buffers, the parameters and their
    [.grad] to the new buffers and parameters. *)
Variable RMSpropState : Type.
Variable rmsprop_step :
  RMSpropOptions -> RMSpropState -> list F -> list F -> RMSpropState * list F.

(** ** The algorithm object *)

Record A2C : Type := {
  policy : Policy;
  value_loss_coef : F;
  entropy_coef : F;
  max_grad_norm : F;
  optimizer : RMSpropOptions
}.

(** [A2C::A2C] (a2c.cpp, lines 15-30) *)
Definition A2C_new (policy : Policy)
  (value_loss_coef entropy_coef learning_rate epsilon alpha max_grad_norm : F) : A2C :=
  {| policy := policy;
     value_loss_coef := value_loss_coef;
     entropy_coef := entropy_coef;
     max_grad_norm := max_grad_norm;
     optimizer := {| learning_rate := learning_rate;
                     eps := epsilon;
                     alpha := alpha |} |}.

Record UpdateDatum : Type := {
  name : string;
  value : F
}.

(** ** The state [update] runs in *)

Record World : Type := {
  (** the storage passed by reference *)
  rollouts : RolloutStorage;
  (** [policy->parameters()], flattened, and their [.grad] *)
  parameters : list F;
  grads : list F;
  (** the graph below the leaves, left by the last evaluation *)
  graph : cotangents -> list F -> list F;
  (** which of the tensors the last evaluation returned share the storage of
      the parameters, and where *)
  views : nat -> option (list nat);
  (** the buffers of the optimizer *)
  optimizer_state : RMSpropState
}.

Definition M (A : Type) : Type := World -> outcome (A * World).

Definition ret {A : Type} (a : A) : M A := fun w => Ok (a, w).

Definition bind {A B : Type} (m : M A) (k : A -> M B) : M B :=
  fun w => match m w with
           | Ok (a, w') => k a w'
           | Throws => Throws
           | Unknown => Unknown
           end.

Definition lift {A : Type} (o : outcome A) : M A :=
  fun w => match o with
           | Ok a => Ok (a, w)
           | Throws => Throws
           | Unknown => Unknown
           end.

Notation "x <- m ;; k" := (bind m (fun x => k))
  (at level 61, m at next level, right associativity).
Notation "m ;;; k" := (bind m (fun _ => k))
  (at level 61, right associativity).

Definition get_observations : M Tensor := fun w => Ok (observations (rollouts w), w).
Definition get_hidden_states : M Tensor := fun w => Ok (hidden_states (rollouts w), w).
Definition get_actions : M Tensor := fun w => Ok (actions (rollouts w), w).
Definition get_rewards : M Tensor := fun w => Ok (rewards (rollouts w), w).
Definition get_masks : M Tensor := fun w => Ok (masks (rollouts w), w).
Definition get_returns : M Tensor := fun w => Ok (returns (rollouts w), w).

(** [policy->evaluate_actions(obs, hidden, masks, actions)]: the returned
    tensors are the leaves, the graph below them is kept for [backward]. *)
Definition call_evaluate_actions (p : Policy) (obs hidden mask action : Tensor)
  : M (list Tensor) :=
  fun w =>
    match evaluate_actions p (parameters w) obs hidden mask action with
    | Ok ev =>
      Ok (leaves (outputs ev),
          {| rollouts := rollouts w;
             parameters := parameters w;
             grads := grads w;
             graph := pullback ev;
             views := shared ev;
             optimizer_state := optimizer_state w |})
    | Throws => Throws
    | Unknown => Unknown
    end.

(** [optimizer->zero_grad()]: the [.grad] of every parameter is set to zero. *)
Definition zero_grad : M unit :=
  fun w =>
    Ok (tt, {| rollouts := rollouts w;
               parameters := parameters w;
               grads := map (fun _ => fzero) (grads w);
               graph := graph w;
               views := views w;
               optimizer_state := optimizer_state w |}).

(** [t.backward()]: [t] must require grad and hold one element; the gradient
    1 flows into it, and what reaches the leaves is passed down the graph and
    added to the [.grad] of the parameters. *)
Definition backward (t : Tensor) : M unit :=
  fun w =>
    match grad_fn t, data t with
    | Some f, [_] =>
      Ok (tt, {| rollouts := rollouts w;
                 parameters := parameters w;
                 grads := graph w (f [fone]) (grads w);
                 graph := graph w;
                 views := views w;
                 optimizer_state := optimizer_state w |})
    | _, _ => Throws
    end.

(** [optimizer->step()]: the parameters are updated in place.  A tensor that
    shares their storage holds the new values from then on: it is read through
    the parameters ([now]). *)
Definition step (o : RMSpropOptions) : M unit :=
  fun w =>
    let r := rmsprop_step o (optimizer_state w) (parameters w) (grads w) in
    Ok (tt, {| rollouts := rollouts w;
               parameters := snd r;
               grads := grads w;
               graph := graph w;
               views := views w;
               optimizer_state := fst r |}).

(** The elements [d] of a tensor whose elements lie at the places [pos] of
    the parameters, read now that the parameters hold [params]. *)
Fixpoint reread (params : list F) (pos : list nat) (d : list F) : list F :=
  match d, pos with
  | x :: d', j :: pos' => nth j params x :: reread params pos' d'
  | _, _ => d
  end.

(** The [i]-th tensor the policy returned, as it is in the world [w]: a
    tensor with storage of its own is as it was, one that shares the storage
    of the parameters holds what they hold now. *)
Definition now (w : World) (i : nat) (t : Tensor) : Tensor :=
  match views w i with
  | Some pos =>
    {| sizes := sizes t; data := reread (parameters w) pos (data t);
       grad_fn := grad_fn t |}
  | None => t
  end.


(** A computation that reads the world and leaves it as it is. *)
Definition reading {A : Type} (f : World -> outcome A) : M A :=
  fun w => lift (f w) w.

(** ** [A2C::update] (a2c.cpp, lines 32-69) *)

(** The locals of the body when it returns. *)
Record Frame : Type := {
  obs_shape : list Z;
  action_shape : Z;
  num_steps : Z;
  num_processes : Z;
  obs_batch : Tensor;
  hidden_batch : Tensor;
  mask_batch : Tensor;
  action_batch : Tensor;
  evaluate_result : list Tensor;
  values : Tensor;
  action_log_probs : Tensor;
  advantages : Tensor;
  value_loss : Tensor;
  action_loss : Tensor;
  loss : Tensor;
  returned : list UpdateDatum
}.

(** The body of [update], statement by statement; it yields the frame, so
    that the locals can be spoken of. *)
Definition update_run (self : A2C) : M Frame :=
  t <- get_observations ;;
  let full_obs_shape := sizes t in
  obs_tail <- lift (from_third full_obs_shape) ;;
  let obs_shape := -1 :: obs_tail in
  t <- get_actions ;;
  action_shape <- lift (size t (-1)) ;;
  t <- get_rewards ;;
  let rewards_shape := sizes t in
  n0 <- lift (array_ref_get rewards_shape 0) ;;
  let num_steps := to_int n0 in
  n1 <- lift (array_ref_get rewards_shape 1) ;;
  let num_processes := to_int n1 in

  t <- get_observations ;;
  obs_batch <- lift (s <~ slice t 0 0 (-1) ;; view s obs_shape)%outcome ;;
  t <- get_hidden_states ;;
  hidden_batch <- lift (h <~ index0 t 0 ;;
                        view h [-1; get_hidden_size (policy self)])%outcome ;;
  t <- get_masks ;;
  mask_batch <- lift (s <~ slice t 0 0 (-1) ;; view s [-1; 1])%outcome ;;
  t <- get_actions ;;
  action_batch <- lift (view t [-1; action_shape]) ;;
  evaluate_result <-
    call_evaluate_actions (policy self) obs_batch hidden_batch mask_batch action_batch ;;

  values <- lift (r <~ vector_get evaluate_result 0 ;;
                  view r [num_steps; num_processes; 1])%outcome ;;
  action_log_probs <- lift (r <~ vector_get evaluate_result 1 ;;
                            view r [num_steps; num_processes; 1])%outcome ;;

  t <- get_returns ;;
  advantages <- lift (s <~ slice t 0 0 (-1) ;; sub s values)%outcome ;;
  let value_loss := mean (pow advantages 2) in

  action_loss <- lift (m <~ mul (detach advantages) action_log_probs ;;
                       Ok (neg (mean m)))%outcome ;;

  zero_grad ;;;
  loss <- lift (entropy <~ vector_get evaluate_result 2 ;;
                a <~ add (mul_scalar value_loss (value_loss_coef self)) action_loss ;;
                sub a (mul_scalar entropy (entropy_coef self)))%outcome ;;
  backward loss ;;;

  step (optimizer self) ;;;

  returned <- reading (fun w =>
                (vl <~ item value_loss ;;
                 al <~ item action_loss ;;
                 entropy <~ vector_get evaluate_result 2 ;;
                 en <~ item (now w 2 entropy) ;;
                 Ok [ {| name := "Value loss"; value := vl |};
                      {| name := "Action loss"; value := al |};
                      {| name := "Entropy"; value := en |} ])%outcome) ;;
  ret {| obs_shape := obs_shape;
         action_shape := action_shape;
         num_steps := num_steps;
         num_processes := num_processes;
         obs_batch := obs_batch;
         hidden_batch := hidden_batch;
         mask_batch := mask_batch;
         action_batch := action_batch;
         evaluate_result := evaluate_result;
         values := values;
         action_log_probs := action_log_probs;
         advantages := advantages;
         value_loss := value_loss;
         action_loss := action_loss;
         loss := loss;
         returned := returned |}.

(** [A2C::update]: what the caller sees is the returned vector. *)
Definition update (self : A2C) : M (list UpdateDatum) :=
  fr <- update_run self ;; ret (returned fr).

(** ** Constructing the algorithm object *)

(** The constructor is declared in cpprl/algorithms/a2c.h; its definition
    (a2c.cpp, lines 15-30) names six scalar parameters and, as C++ has it,
    cannot repeat default arguments.  A declaration is taken as a parameter:
    for the six parameters in order, the default argument if it has one. *)
Definition defaults : Type := list (option F).

(** The arguments of a call, completed with default arguments: [None] when
    a parameter is left without a value or an argument without a parameter. *)
Fixpoint complete_arguments (d : defaults) (args : list F) : option (list F) :=
  match d with
  | [] => match args with [] => Some [] | _ :: _ => None end
  | o :: d' =>
    match args with
    | a :: args' => option_map (cons a) (complete_arguments d' args')
    | [] =>
      match o with
      | Some v => option_map (cons v) (complete_arguments d' [])
      | None => None
      end
    end
  end.

(** [A2C a2c(policy, args...)] under the declaration [d]. *)
Definition construct (d : defaults) (policy : Policy) (args : list F) : option A2C :=
  match complete_arguments d args with
  | Some [a; b; c; e; f; g] => Some (A2C_new policy a b c e f g)
  | _ => None
  end.

(** TEST_CASE("A2C"), line 77: [A2C a2c(policy, 1.0, 1e-7, 0.1);] *)
Definition test_case_arguments : list F :=
  [of_Q 1; of_Q (1 # 10000000); of_Q (1 # 10)].

(** A declaration in which all six parameters are required. *)
Definition all_required : defaults := repeat None 6.

(** ** What the statements speak of *)

(** The gradients [backward] on [l] leaves in the [.grad] of the parameters,
    starting from zeroed ones, through the graph [ev] left. *)
Definition grads_after (ev : Evaluation) (l : Tensor) (w : World) : list F :=
  pullback ev (back l [fone]) (map (fun _ => fzero) (grads w)).

(** The world a returning run leaves. *)
Definition world_after (self : A2C) (ev : Evaluation) (l : Tensor) (w : World) : World :=
  let r := rmsprop_step (optimizer self) (optimizer_state w) (parameters w)
                        (grads_after ev l w) in
  {| rollouts := rollouts w;
     parameters := snd r;
     grads := grads_after ev l w;
     graph := pullback ev;
     views := shared ev;
     optimizer_state := fst r |}.

(** What each statement of the body has computed in a run from [w] that
    returns the frame [fr] and leaves [w']. *)
Inductive run_steps (self : A2C) (w : World) (fr : Frame) (w' : World) : Prop :=
| RunSteps
    (ev : Evaluation) (obs_tail : list Z) (n0 n1 : Z)
    (s_obs h0 s_mask r0 r1 s_ret m entropy a : Tensor) (vl al en en_now : F)
    (Htail : from_third (sizes (observations (rollouts w))) = Ok obs_tail)
    (Hobs_shape : obs_shape fr = -1 :: obs_tail)
    (Haction_shape : size (actions (rollouts w)) (-1) = Ok (action_shape fr))
    (Hn0 : array_ref_get (sizes (rewards (rollouts w))) 0 = Ok n0)
    (Hn1 : array_ref_get (sizes (rewards (rollouts w))) 1 = Ok n1)
    (Hsteps : num_steps fr = to_int n0)
    (Hprocs : num_processes fr = to_int n1)
    (Hs_obs : slice (observations (rollouts w)) 0 0 (-1) = Ok s_obs)
    (Hobs : view s_obs (obs_shape fr) = Ok (obs_batch fr))
    (Hh0 : index0 (hidden_states (rollouts w)) 0 = Ok h0)
    (Hhid : view h0 [-1; get_hidden_size (policy self)] = Ok (hidden_batch fr))
    (Hs_mask : slice (masks (rollouts w)) 0 0 (-1) = Ok s_mask)
    (Hmask : view s_mask [-1; 1] = Ok (mask_batch fr))
    (Hact : view (actions (rollouts w)) [-1; action_shape fr] = Ok (action_batch fr))
    (Hev : evaluate_actions (policy self) (parameters w)
             (obs_batch fr) (hidden_batch fr) (mask_batch fr) (action_batch fr) = Ok ev)
    (Hres : evaluate_result fr = leaves (outputs ev))
    (Hr0 : nth_error (evaluate_result fr) 0 = Some r0)
    (Hvalues : view r0 [num_steps fr; num_processes fr; 1] = Ok (values fr))
    (Hr1 : nth_error (evaluate_result fr) 1 = Some r1)
    (Hlogp : view r1 [num_steps fr; num_processes fr; 1] = Ok (action_log_probs fr))
    (Hs_ret : slice (returns (rollouts w)) 0 0 (-1) = Ok s_ret)
    (Hadv : sub s_ret (values fr) = Ok (advantages fr))
    (Hvl : value_loss fr = mean (pow (advantages fr) 2))
    (Hm : mul (detach (advantages fr)) (action_log_probs fr) = Ok m)
    (Hal : action_loss fr = neg (mean m))
    (Hentropy : nth_error (evaluate_result fr) 2 = Some entropy)
    (Ha : add (mul_scalar (value_loss fr) (value_loss_coef self)) (action_loss fr) = Ok a)
    (Hloss : sub a (mul_scalar entropy (entropy_coef self)) = Ok (loss fr))
    (Hgrad : requires_grad (loss fr) = true)
    (Hw' : w' = world_after self ev (loss fr) w)
    (Hitem_vl : data (value_loss fr) = [vl])
    (Hitem_al : data (action_loss fr) = [al])
    (Hitem_en : data entropy = [en])
    (Hitem_now : data (now w' 2 entropy) = [en_now])
    (Hreturned : returned fr = [ {| name := "Value loss"; value := vl |};
                                 {| name := "Action loss"; value := al |};
                                 {| name := "Entropy"; value := en_now |} ]).

(** The sizes of the storage for [T] steps, [P] processes, observations of
    sizes [od], hidden states of size [H] and actions of [A] numbers. *)
Record storage_shaped (r : RolloutStorage) (T P : Z) (od : list Z) (H A : Z) : Prop := {
  steps_range : 0 <= T < 2 ^ 31;
  processes_range : 0 <= P < 2 ^ 31;
  obs_dims_pos : Forall (fun d => 0 < d) od;
  hidden_pos : 0 < H;
  action_pos : 0 < A;
  observations_sizes : sizes (observations r) = T + 1 :: P :: od;
  hidden_states_sizes : sizes (hidden_states r) = [T + 1; P; H];
  actions_sizes : sizes (actions r) = [T; P; A];
  rewards_sizes : sizes (rewards r) = [T; P; 1];
  masks_sizes : sizes (masks r) = [T + 1; P; 1];
  returns_sizes : sizes (returns r) = [T + 1; P; 1]
}.

(** The contract of [evaluate_actions] on a batch of [N] rows: a value and a
    log-probability per row, and one entropy. *)
Definition policy_shaped (p : Policy) (params : list F) (N P : Z) (od : list Z) (A : Z)
  : Prop :=
  forall o h m a : Tensor,
    sizes o = N :: od ->
    sizes h = [P; get_hidden_size p] ->
    sizes m = [N; 1] ->
    sizes a = [N; A] ->
    exists ev dv dl en,
      evaluate_actions p params o h m a = Ok ev /\
      outputs ev = [([N; 1], dv); ([N; 1], dl); ([], [en])].

(** Two tensors that agree on slot 0 along dimension 0. *)
Definition same_slot_0 (a b : Tensor) : Prop :=
  sizes a = sizes b /\
  grad_fn a = grad_fn b /\
  firstn (Z.to_nat (numel (tl (sizes a)))) (data a) =
  firstn (Z.to_nat (numel (tl (sizes a)))) (data b).





(** The frame [fr] with another returned vector. *)
Definition with_returned (fr : Frame) (r : list UpdateDatum) : Frame :=
  {| obs_shape := obs_shape fr;
     action_shape := action_shape fr;
     num_steps := num_steps fr;
     num_processes := num_processes fr;
     obs_batch := obs_batch fr;
     hidden_batch := hidden_batch fr;
     mask_batch := mask_batch fr;
     action_batch := action_batch fr;
     evaluate_result := evaluate_result fr;
     values := values fr;
     action_log_probs := action_log_probs fr;
     advantages := advantages fr;
     value_loss := value_loss fr;
     action_loss := action_loss fr;
     loss := loss fr;
     returned := r |}.

(** Two tensors that agree on every slot along dimension 0 but the last. *)
Definition same_but_last (a b : Tensor) : Prop :=
  sizes a = sizes b /\
  grad_fn a = grad_fn b /\
  firstn (Z.to_nat ((hd 0 (sizes a) - 1) * numel (tl (sizes a)))) (data a) =
  firstn (Z.to_nat ((hd 0 (sizes a) - 1) * numel (tl (sizes a)))) (data b).

(** A policy that, on a batch of [N] rows, returns an evaluation that is
    [such]. *)
Definition policy_returns (p : Policy) (params : list F) (N P : Z) (od : list Z) (A : Z)
           (such : Evaluation -> Prop) : Prop :=
  forall o h m a : Tensor,
    sizes o = N :: od ->
    sizes h = [P; get_hidden_size p] ->
    sizes m = [N; 1] ->
    sizes a = [N; A] ->
    exists ev, evaluate_actions p params o h m a = Ok ev /\ such ev.

(** One of the first two returned tensors does not hold [N] elements. *)
Definition miscounted (N : Z) (ev : Evaluation) : Prop :=
  exists s0 d0 s1 d1 more,
    outputs ev = (s0, d0) :: (s1, d1) :: more /\ (numel s0 <> N \/ numel s1 <> N).

(** The returned vector holds the values and the log-probabilities only. *)
Definition without_entropy (N : Z) (ev : Evaluation) : Prop :=
  exists dv dl, outputs ev = [([N; 1], dv); ([N; 1], dl)].



(** ** The game of TEST_CASE("A2C") *)

(** a2c.cpp, lines 93-103: the observation and the action that earns the
    reward, from the bit drawn by [torch::randint(2, {1})]. *)
Definition draw_game (bit : bool) : list F * Z :=
  if bit then ([of_Q 1; of_Q 0], 0) else ([of_Q 0; of_Q 1], 1).

(** [c10::Scalar::toInt]: a checked conversion, which raises when the value
    does not fit an [int]. *)
Definition toInt (x : Z) : outcome Z :=
  if (int_min <=? x) && (x <? int_min + int_modulus) then Ok x else Throws.

(** Lines 118-125: the reward of one process. *)
Definition reward_of (action target_action : Z) : outcome F :=
  (a <~ toInt action ;;
   Ok (if a =? target_action then of_Z 1 else of_Z 0))%outcome.

(** Lines 115-127: [float rewards_array[2]], filled for [process <
    actions.size(0)] and read as a tensor of sizes (2, 1).  More than two
    actions write past the array, fewer leave an entry uninitialised. *)
Definition rewards_of (actions : list Z) (target_action : Z) : outcome Tensor :=
  match actions with
  | [a0; a1] =>
    (r0 <~ reward_of a0 target_action ;;
     r1 <~ reward_of a1 target_action ;;
     Ok {| sizes := [2; 1]; data := [r0; r1]; grad_fn := None |})%outcome
  | _ => Unknown
  end.

End Torch.

(** * A concrete instance: rational scalars, a linear policy *)

Module Example.

#[local] Open Scope Q_scope.

#[export] Instance QOps : FloatOps Q := {
  fadd x y := Qred (x + y);
  fsub x y := Qred (x - y);
  fmul x y := Qred (x * y);
  fdiv x y := Qred (x / y);
  fneg x := Qred (- x);
  fpow x n := Qred (x ^ n);
  fsum l := Qred (fold_left Qplus l 0);
  of_Q q := Qred q
}.

Definition const (s : list Z) (d : list Q) : Tensor :=
  {| sizes := s; data := d; grad_fn := None |}.

Definition dot (a b : list Q) : Q := fsum (zip_with Qmult a b).

Definition lookup (i : nat) (c : cotangents (F := Q)) : list Q :=
  match find (fun e => Nat.eqb (fst e) i) c with
  | Some e => snd e
  | None => []
  end.

(** Two parameters [w; c]: the value of a row is [w * obs], the
    log-probability of its action is [c * action], the entropy is a copy of
    [c], in storage of its own. *)
Definition linear_policy : Policy (F := Q) :=
  {| get_hidden_size := 1;
     evaluate_actions := fun params obs hidden mask action =>
       match params with
       | [w; c] =>
         let n := hd 0%Z (sizes obs) in
         Ok {| outputs := [ ([n; 1%Z], map (fun x => fmul w x) (data obs));
                            ([n; 1%Z], map (fun a => fmul c a) (data action));
                            ([], [c]) ];
               pullback := fun ct g =>
                 zip_with (fun x y => fadd x y) g
                   [ dot (lookup 0 ct) (data obs);
                     fadd (dot (lookup 1 ct) (data action)) (fsum (lookup 2 ct)) ];
               shared := fun _ => None |}
       | _ => Throws
       end |}.

(** A stand-in for the optimizer: a plain gradient step, no buffers. *)
Definition plain_step (o : RMSpropOptions (F := Q)) (s : unit) (p g : list Q)
  : unit * list Q :=
  (s, zip_with (fun x d => fsub x (fmul (learning_rate o) d)) p g).

(** Two steps, two processes, observations of one number. *)
Definition storage : RolloutStorage (F := Q) :=
  {| observations := const [3; 2; 1]%Z [1; 2; 3; 4; 5; 6];
     hidden_states := const [3; 2; 1]%Z [0; 0; 0; 0; 0; 0];
     actions := const [2; 2; 1]%Z [0; 1; 1; 0];
     rewards := const [2; 2; 1]%Z [1; 0; 0; 1];
     masks := const [3; 2; 1]%Z [1; 1; 1; 1; 1; 1];
     returns := const [3; 2; 1]%Z [3; 2; 1; 4; 0; 0] |}.

Definition world (stale : list Q) : World (F := Q) unit :=
  {| rollouts := storage;
     parameters := [1; 1];
     grads := stale;
     graph := fun _ g => g;
     views := fun _ => None;
     optimizer_state := tt |}.

Definition a2c (max_grad_norm : Q) : A2C (F := Q) :=
  A2C_new linear_policy 1 (1 # 2) (1 # 8) 0 0 max_grad_norm.

(** The same storage with other hidden states in the slots after the first. *)
Definition storage_later_hidden : RolloutStorage (F := Q) :=
  {| observations := observations storage;
     hidden_states := const [3; 2; 1]%Z [0; 0; 5; 6; 7; 8];
     actions := actions storage;
     rewards := rewards storage;
     masks := masks storage;
     returns := returns storage |}.

Definition world_later_hidden (stale : list Q) : World (F := Q) unit :=
  {| rollouts := storage_later_hidden;
     parameters := [1; 1];
     grads := stale;
     graph := fun _ g => g;
     views := fun _ => None;
     optimizer_state := tt |}.

(** The same world with other parameters: the values the policy computes
    change, the log-probabilities do not. *)
Definition world_other_values : World (F := Q) unit :=
  {| rollouts := storage;
     parameters := [2; 1];
     grads := [0; 0];
     graph := fun _ g => g;
     views := fun _ => None;
     optimizer_state := tt |}.

(** The square of the L2 norm of a gradient, and whether the gradient lies
    within the norm [m]. *)
Definition sum_squares (g : list Q) : Q := fold_left (fun acc x => acc + x * x) g 0.

Definition within_norm (m : Q) (g : list Q) : bool := Qle_bool (sum_squares g) (m * m).

(** A declaration of the constructor that gives the last three parameters
    default arguments. *)
Definition declaration_with_defaults : defaults (F := Q) :=
  [None; None; None; Some (1 # 100000000); Some (99 # 100); Some (1 # 2)].

(** The same storage with another last slot of the observations, of the
    masks and of the returns. *)
Definition storage_other_last : RolloutStorage (F := Q) :=
  {| observations := const [3; 2; 1]%Z [1; 2; 3; 4; 9; 8];
     hidden_states := hidden_states storage;
     actions := actions storage;
     rewards := rewards storage;
     masks := const [3; 2; 1]%Z [1; 1; 1; 1; 0; 0];
     returns := const [3; 2; 1]%Z [3; 2; 1; 4; 7; 7] |}.

(** The same storage with other rewards. *)
Definition storage_other_rewards : RolloutStorage (F := Q) :=
  {| observations := observations storage;
     hidden_states := hidden_states storage;
     actions := actions storage;
     rewards := const [2; 2; 1]%Z [5; 5; 5; 5];
     masks := masks storage;
     returns := returns storage |}.

(** A storage of no steps: one slot of observations, hidden states, masks and
    returns, none of actions and rewards. *)
Definition storage_no_steps : RolloutStorage (F := Q) :=
  {| observations := const [1; 2; 1]%Z [5; 6];
     hidden_states := const [1; 2; 1]%Z [0; 0];
     actions := const [0; 2; 1]%Z [];
     rewards := const [0; 2; 1]%Z [];
     masks := const [1; 2; 1]%Z [1; 1];
     returns := const [1; 2; 1]%Z [0; 0] |}.

(** A storage whose observations have one dimension. *)
Definition storage_flat_observations : RolloutStorage (F := Q) :=
  {| observations := const [6]%Z [1; 2; 3; 4; 5; 6];
     hidden_states := hidden_states storage;
     actions := actions storage;
     rewards := rewards storage;
     masks := masks storage;
     returns := returns storage |}.

Definition world_of (r : RolloutStorage (F := Q)) : World (F := Q) unit :=
  {| rollouts := r;
     parameters := [1; 1];
     grads := [0; 0];
     graph := fun _ g => g;
     views := fun _ => None;
     optimizer_state := tt |}.

(** A policy that returns one value whatever the batch. *)
Definition one_value_policy : Policy (F := Q) :=
  {| get_hidden_size := 1;
     evaluate_actions := fun params obs hidden mask action =>
       let n := hd 0%Z (sizes obs) in
       Ok {| outputs := [ ([1; 1]%Z, [0]);
                          ([n; 1%Z], map (fun a => a) (data action));
                          ([], [0]) ];
             pullback := fun _ g => g;
             shared := fun _ => None |} |}.

(** A policy that returns no entropy. *)
Definition no_entropy_policy : Policy (F := Q) :=
  {| get_hidden_size := 1;
     evaluate_actions := fun params obs hidden mask action =>
       let n := hd 0%Z (sizes obs) in
       Ok {| outputs := [ ([n; 1%Z], data obs); ([n; 1%Z], data action) ];
             pullback := fun _ g => g;
             shared := fun _ => None |} |}.






(** Another stand-in for the optimizer: it leaves the parameters as they are. *)
Definition idle_step (o : RMSpropOptions (F := Q)) (s : unit) (p g : list Q)
  : unit * list Q := (s, p).

End Example.


(** * Properties of the embedded code *)

Section Properties.

Context {F : Type} {ops : FloatOps F} {RMSpropState : Type}.
Variable rmsprop_step :
  RMSpropOptions (F := F) -> RMSpropState -> list F -> list F -> RMSpropState * list F.

#[local] Abbreviation Tensor := (@Tensor F).
#[local] Abbreviation RolloutStorage := (@RolloutStorage F).
#[local] Abbreviation Policy := (@Policy F).
#[local] Abbreviation Evaluation := (@Evaluation F).
#[local] Abbreviation A2C := (@A2C F).
#[local] Abbreviation Frame := (@Frame F).
#[local] Abbreviation World := (@World F RMSpropState).
#[local] Abbreviation get_observations := (@get_observations F RMSpropState).
#[local] Abbreviation get_hidden_states := (@get_hidden_states F RMSpropState).
#[local] Abbreviation get_actions := (@get_actions F RMSpropState).
#[local] Abbreviation get_rewards := (@get_rewards F RMSpropState).
#[local] Abbreviation get_masks := (@get_masks F RMSpropState).
#[local] Abbreviation get_returns := (@get_returns F RMSpropState).
#[local] Abbreviation zero_grad := (@zero_grad F ops RMSpropState).
#[local] Abbreviation step := (step rmsprop_step).
#[local] Abbreviation update_run := (update_run rmsprop_step).
#[local] Abbreviation update := (update rmsprop_step).
#[local] Abbreviation grads_after := (@grads_after F ops RMSpropState).
#[local] Abbreviation world_after := (world_after rmsprop_step).
#[local] Abbreviation run_steps := (run_steps rmsprop_step).

(** ** Integers *)

Lemma to_int_small (x : Z) : 0 <= x < 2 ^ 31 -> to_int x = x.
Proof.
  intros Hx. unfold to_int, int_min, int_modulus.
  rewrite Z.mod_small; lia.
Qed.

Lemma sizes_eqb_refl (s : list Z) : sizes_eqb s s = true.
Proof.
  induction s as [|x s IH]; simpl; [reflexivity|].
  rewrite Z.eqb_refl, IH. reflexivity.
Qed.

Lemma sizes_eqb_eq (a b : list Z) : sizes_eqb a b = true -> a = b.
Proof.
  revert b. induction a as [|x a IH]; intros [|y b]; simpl; try discriminate; auto.
  intros H. apply andb_prop in H. destruct H as [Hxy Hab].
  apply Z.eqb_eq in Hxy. subst. f_equal. auto.
Qed.

Ltac plain_term a :=
  lazymatch a with
  | context [Z.ltb] => fail
  | context [Z.leb] => fail
  | context [Z.eqb] => fail
  | _ => idtac
  end.

Ltac zbool :=
  repeat match goal with
         | |- context [?a <? ?b] =>
           plain_term a; plain_term b; destruct (Z.ltb_spec a b); try lia
         | |- context [?a <=? ?b] =>
           plain_term a; plain_term b; destruct (Z.leb_spec a b); try lia
         | |- context [?a =? ?b] =>
           plain_term a; plain_term b; destruct (Z.eqb_spec a b); try lia
         end.

(** ** [slice], [operator[]], [view] on the sizes of a rollout *)

(** [t.slice(0, 0, -1)] drops the last slot along dimension 0. *)
Lemma slice_drop_last (t : Tensor) (n : Z) (rest : list Z) :
  sizes t = n + 1 :: rest -> 0 <= n ->
  exists s, slice t 0 0 (-1) = Ok s /\
            sizes s = n :: rest /\
            data s = firstn (Z.to_nat (n * numel rest)) (data t) /\
            (grad_fn t = None -> grad_fn s = None).
Proof.
  intros Hs Hn. unfold slice. rewrite Hs. cbn [negb Z.eqb].
  change (0 <? 0) with false. change (-1 <? 0) with true. cbv iota.
  eexists. split; [reflexivity|]. cbn [sizes data grad_fn].
  zbool; cbn [Z.mul Z.to_nat skipn].
  replace (-1 + (n + 1) - 0) with n by lia.
  split; [reflexivity|]. split; [reflexivity|].
  intros Hg. unfold node1. rewrite Hg. reflexivity.
Qed.


Lemma index0_in_range (t : Tensor) (n : Z) (rest : list Z) (i : Z) :
  sizes t = n :: rest -> 0 <= i < n ->
  exists r, index0 t i = Ok r /\
            sizes r = rest /\
            data r = firstn (Z.to_nat (numel rest))
                       (skipn (Z.to_nat (i * numel rest)) (data t)).
Proof.
  intros Hs Hi. unfold index0. rewrite Hs.
  zbool; cbn [orb]; eexists; (split; [reflexivity|]); split; reflexivity.
Qed.

Lemma numel_pos (s : list Z) : Forall (fun d => 0 < d) s -> 0 < numel s.
Proof.
  induction 1 as [|d s Hd _ IH]; simpl; lia.
Qed.

Lemma numel_nonneg (s : list Z) : Forall (fun d => 0 <= d) s -> 0 <= numel s.
Proof.
  induction 1 as [|d s Hd _ IH]; simpl; lia.
Qed.

Lemma existsb_below_false (s : list Z) :
  Forall (fun d => 0 < d) s -> existsb (fun d => d <? -1) s = false.
Proof.
  induction 1 as [|d s Hd _ IH]; simpl; [reflexivity|].
  rewrite IH. zbool; reflexivity.
Qed.

Lemma filter_keeps_pos (s : list Z) :
  Forall (fun d => 0 < d) s -> filter (fun d => negb (d =? -1)) s = s.
Proof.
  induction 1 as [|d s Hd _ IH]; simpl; [reflexivity|].
  zbool; simpl; rewrite IH; reflexivity.
Qed.

Lemma count_minus_one_pos (s : list Z) :
  Forall (fun d => 0 < d) s -> count_occ Z.eq_dec s (-1) = O.
Proof.
  induction 1 as [|d s Hd _ IH]; simpl; [reflexivity|].
  destruct (Z.eq_dec d (-1)); [lia|assumption].
Qed.

Lemma map_infer_pos (s : list Z) (q : Z) :
  Forall (fun d => 0 < d) s -> map (fun d => if d =? -1 then q else d) s = s.
Proof.
  induction 1 as [|d s Hd _ IH]; simpl; [reflexivity|].
  zbool; rewrite IH; reflexivity.
Qed.

(** Flattening the leading dimensions: [view({-1, d1, ..., dk})]. *)
Lemma infer_leading (tail : list Z) (m : Z) :
  Forall (fun d => 0 < d) tail -> 0 <= m ->
  infer_size (-1 :: tail) (m * numel tail) = Ok (m :: tail).
Proof.
  intros Ht Hm. unfold infer_size.
  cbn [existsb filter count_occ].
  change (-1 <? -1) with false. change (-1 =? -1) with true.
  cbn [orb negb]. rewrite existsb_below_false by assumption.
  rewrite filter_keeps_pos by assumption.
  destruct (Z.eq_dec (-1) (-1)) as [_|Hne]; [|congruence].
  rewrite count_minus_one_pos by assumption.
  pose proof (numel_pos Ht) as Hpos.
  rewrite Z.mod_mul by lia. rewrite Z.div_mul by lia.
  zbool; cbn [andb map Z.eqb]; rewrite map_infer_pos by assumption; reflexivity.
Qed.

(** A [view] to sizes without -1 that hold as many elements. *)
Lemma infer_exact (shape : list Z) (n : Z) :
  Forall (fun d => 0 <= d) shape -> n = numel shape ->
  infer_size shape n = Ok shape.
Proof.
  intros Hs Hn. unfold infer_size.
  assert (He : existsb (fun d => d <? -1) shape = false).
  { clear Hn. induction Hs as [|d s Hd _ IH]; simpl; [reflexivity|].
    rewrite IH. zbool; reflexivity. }
  assert (Hf : filter (fun d => negb (d =? -1)) shape = shape).
  { clear Hn He. induction Hs as [|d s Hd _ IH]; simpl; [reflexivity|].
    zbool; simpl; rewrite IH; reflexivity. }
  assert (Hc : count_occ Z.eq_dec shape (-1) = O).
  { clear Hn He Hf. induction Hs as [|d s Hd _ IH]; simpl; [reflexivity|].
    destruct (Z.eq_dec d (-1)); [lia|assumption]. }
  rewrite He, Hf, Hc. subst n. rewrite Z.eqb_refl. reflexivity.
Qed.

(** ** The steps of a run that returns *)

Lemma obind_ok {A B : Type} (m : outcome A) (k : A -> outcome B) (b : B) :
  obind m k = Ok b -> exists a, m = Ok a /\ k a = Ok b.
Proof.
  destruct m as [a| |]; simpl; try discriminate. intros H. exists a. auto.
Qed.

Lemma bind_ok {A B : Type} (m : M RMSpropState A) (k : A -> M RMSpropState B)
      (w w' : World) (b : B) :
  bind m k w = Ok (b, w') -> exists a w1, m w = Ok (a, w1) /\ k a w1 = Ok (b, w').
Proof.
  unfold bind. destruct (m w) as [[a w1]| |]; try discriminate.
  intros H. exists a, w1. auto.
Qed.

Lemma lift_ok {A : Type} (o : outcome A) (w w' : World) (a : A) :
  lift o w = Ok (a, w') -> o = Ok a /\ w' = w.
Proof.
  unfold lift. destruct o; try discriminate. intros H. inversion H. auto.
Qed.

Lemma vector_get_ok {A : Type} (v : list A) (i : nat) (x : A) :
  vector_get v i = Ok x -> nth_error v i = Some x.
Proof.
  unfold vector_get. destruct (nth_error v i); try discriminate.
  intros H. inversion H. reflexivity.
Qed.

Lemma item_ok (t : Tensor) (x : F) : item t = Ok x -> data t = [x].
Proof.
  unfold item. destruct (data t) as [|y [|z l]]; try discriminate.
  intros H. inversion H. reflexivity.
Qed.

(** Reading a tensor through the parameters keeps the number of its elements. *)
Lemma reread_length (params : list F) (pos : list nat) (d : list F) :
  length (reread params pos d) = length d.
Proof.
  revert pos. induction d as [|x d IH]; intros [|j pos]; simpl; try reflexivity.
  rewrite IH. reflexivity.
Qed.

Lemma now_length (w : World) (i : nat) (t : Tensor) :
  length (data (now w i t)) = length (data t).
Proof.
  unfold now. destruct (views w i); [apply reread_length|reflexivity].
Qed.

Lemma now_single_inv (w : World) (i : nat) (t : Tensor) (y : F) :
  data (now w i t) = [y] -> exists x, data t = [x].
Proof.
  intros H. pose proof (now_length w i t) as Hl. rewrite H in Hl.
  destruct (data t) as [|x [|z d]]; try discriminate Hl. exists x. reflexivity.
Qed.

Lemma now_single (w : World) (i : nat) (t : Tensor) (x : F) :
  data t = [x] -> exists y, data (now w i t) = [y].
Proof.
  intros H. pose proof (now_length w i t) as Hl. rewrite H in Hl.
  destruct (data (now w i t)) as [|y [|z d]]; try discriminate Hl. exists y. reflexivity.
Qed.

Ltac inv_run :=
  repeat match goal with
         | H : bind _ _ _ = Ok _ |- _ =>
           apply bind_ok in H; destruct H as (? & ? & ? & H)
         | H : reading _ _ = Ok _ |- _ => unfold reading in H
         | H : lift _ _ = Ok _ |- _ =>
           apply lift_ok in H; destruct H as [H ?]; subst
         | H : obind _ _ = Ok _ |- _ =>
           apply obind_ok in H; destruct H as (? & ? & H)
         | H : ret _ _ = Ok _ |- _ => inversion H; subst; clear H
         | H : Ok _ = Ok _ |- _ => inversion H; subst; clear H
         | H : vector_get _ _ = Ok _ |- _ => apply vector_get_ok in H
         | H : item _ = Ok _ |- _ => apply item_ok in H
         end.

Lemma update_run_inv (self : A2C) (w w' : World) (fr : Frame) :
  update_run self w = Ok (fr, w') -> run_steps self w fr w'.
Proof.
  intros H. unfold update_run in H.
  unfold get_observations, get_actions, get_rewards,
    get_hidden_states, get_masks, get_returns in H.
  inv_run.
  match goal with
  | H : call_evaluate_actions _ _ _ _ _ _ = Ok _ |- _ =>
    unfold call_evaluate_actions in H;
    destruct (evaluate_actions _ _ _ _ _ _) as [ev| |] eqn:Hev; try discriminate H;
    inversion H; subst; clear H
  end.
  match goal with
  | H : zero_grad _ = Ok _ |- _ => unfold zero_grad in H; inversion H; subst; clear H
  end.
  match goal with
  | H : backward ?l _ = Ok _ |- _ =>
    unfold backward in H;
    destruct (grad_fn l) as [g|] eqn:Hg; [|discriminate H];
    destruct (data l) as [|x [|y d]] eqn:Hd; try discriminate H;
    inversion H; subst; clear H
  end.
  match goal with
  | H : step _ _ = Ok _ |- _ => unfold step in H; inversion H; subst; clear H
  end.
  cbn [rollouts parameters grads graph views optimizer_state] in *.
  match goal with
  | H1 : nth_error ?l 2 = Some ?a, H2 : nth_error ?l 2 = Some ?b |- _ =>
    assert (a = b) by congruence; subst a; clear H1
  end.
  match goal with
  | H : data (now _ 2 _) = [_] |- _ =>
    let en := fresh "en" in
    let Hen := fresh "Hen" in
    destruct (now_single_inv _ _ _ H) as [en Hen]
  end.
  econstructor; cbn [obs_shape action_shape num_steps num_processes obs_batch
    hidden_batch mask_batch action_batch evaluate_result values action_log_probs
    advantages value_loss action_loss loss returned]; try eassumption; try reflexivity.
  - unfold requires_grad. rewrite Hg. reflexivity.
  - unfold world_after, grads_after, back. rewrite Hg. reflexivity.
Qed.

Lemma view_ok (t : Tensor) (shape s : list Z) :
  infer_size shape (numel (sizes t)) = Ok s ->
  view t shape = Ok {| sizes := s; data := data t; grad_fn := grad_fn t |}.
Proof.
  intros H. unfold view. rewrite H. reflexivity.
Qed.


(** Flattening [T] steps of [P] processes: [view({-1, d1, ..., dk})]. *)
Lemma view_flatten (t : Tensor) (T P : Z) (tail : list Z) :
  sizes t = T :: P :: tail -> 0 <= T -> 0 <= P -> Forall (fun d => 0 < d) tail ->
  view t (-1 :: tail) =
  Ok {| sizes := T * P :: tail; data := data t; grad_fn := grad_fn t |}.
Proof.
  intros Hs HT HP Htail. apply view_ok. rewrite Hs. cbn [numel fold_right].
  rewrite Z.mul_assoc. apply infer_leading; [assumption|nia].
Qed.

Lemma view_steps_processes (t : Tensor) (T P : Z) :
  sizes t = [T * P; 1] -> 0 <= T -> 0 <= P ->
  view t [T; P; 1] =
  Ok {| sizes := [T; P; 1]; data := data t; grad_fn := grad_fn t |}.
Proof.
  intros Hs HT HP. apply view_ok. rewrite Hs. apply infer_exact.
  - repeat constructor; lia.
  - cbn [numel fold_right]. ring.
Qed.

Lemma pointwise_same (f : F -> F -> F) (fa fb : list F -> list F) (a b : Tensor) :
  sizes a = sizes b ->
  pointwise f fa fb a b =
  Ok {| sizes := sizes a;
        data := zip_with f (data a) (data b);
        grad_fn := node2 a b fa fb |}.
Proof.
  intros H. unfold pointwise. rewrite H, sizes_eqb_refl. reflexivity.
Qed.

Lemma pointwise_inv (f : F -> F -> F) (fa fb : list F -> list F) (a b c : Tensor) :
  pointwise f fa fb a b = Ok c ->
  sizes a = sizes b /\
  c = {| sizes := sizes a;
         data := zip_with f (data a) (data b);
         grad_fn := node2 a b fa fb |}.
Proof.
  unfold pointwise. destruct (sizes_eqb (sizes a) (sizes b)) eqn:E; try discriminate.
  intros H. inversion H. split; [apply sizes_eqb_eq; assumption|reflexivity].
Qed.

(** ** Running the monad forward *)

Lemma bind_lift {A B : Type} (o : outcome A) (k : A -> M RMSpropState B)
      (w : World) (a : A) :
  o = Ok a -> bind (lift o) k w = k a w.
Proof.
  intros H. subst o. reflexivity.
Qed.

Lemma bind_reading {A B : Type} (f : World -> outcome A) (k : A -> M RMSpropState B)
      (w : World) (a : A) :
  f w = Ok a -> bind (reading f) k w = k a w.
Proof.
  intros H. unfold bind, reading, lift. rewrite H. reflexivity.
Qed.

Lemma bind_get_observations {B : Type} (k : Tensor -> M RMSpropState B) (w : World) :
  bind get_observations k w = k (observations (rollouts w)) w.
Proof. reflexivity. Qed.

Lemma bind_get_hidden_states {B : Type} (k : Tensor -> M RMSpropState B) (w : World) :
  bind get_hidden_states k w = k (hidden_states (rollouts w)) w.
Proof. reflexivity. Qed.

Lemma bind_get_actions {B : Type} (k : Tensor -> M RMSpropState B) (w : World) :
  bind get_actions k w = k (actions (rollouts w)) w.
Proof. reflexivity. Qed.

Lemma bind_get_rewards {B : Type} (k : Tensor -> M RMSpropState B) (w : World) :
  bind get_rewards k w = k (rewards (rollouts w)) w.
Proof. reflexivity. Qed.

Lemma bind_get_masks {B : Type} (k : Tensor -> M RMSpropState B) (w : World) :
  bind get_masks k w = k (masks (rollouts w)) w.
Proof. reflexivity. Qed.

Lemma bind_get_returns {B : Type} (k : Tensor -> M RMSpropState B) (w : World) :
  bind get_returns k w = k (returns (rollouts w)) w.
Proof. reflexivity. Qed.

Lemma bind_call_evaluate_actions {B : Type} (p : Policy) (o h m a : Tensor)
      (k : list Tensor -> M RMSpropState B) (w : World) (ev : Evaluation) :
  evaluate_actions p (parameters w) o h m a = Ok ev ->
  bind (call_evaluate_actions p o h m a) k w =
  k (leaves (outputs ev))
    {| rollouts := rollouts w;
       parameters := parameters w;
       grads := grads w;
       graph := pullback ev;
       views := shared ev;
       optimizer_state := optimizer_state w |}.
Proof.
  intros H. unfold bind, call_evaluate_actions. rewrite H. reflexivity.
Qed.

Lemma bind_zero_grad {B : Type} (k : unit -> M RMSpropState B) (w : World) :
  bind zero_grad k w =
  k tt {| rollouts := rollouts w;
          parameters := parameters w;
          grads := map (fun _ => fzero) (grads w);
          graph := graph w;
          views := views w;
          optimizer_state := optimizer_state w |}.
Proof. reflexivity. Qed.

Lemma bind_backward {B : Type} (t : Tensor) (k : unit -> M RMSpropState B) (w : World)
      (x : F) :
  requires_grad t = true -> data t = [x] ->
  bind (backward t) k w =
  k tt {| rollouts := rollouts w;
          parameters := parameters w;
          grads := graph w (back t [fone]) (grads w);
          graph := graph w;
          views := views w;
          optimizer_state := optimizer_state w |}.
Proof.
  intros Hg Hd. unfold bind, backward, requires_grad, back in *.
  destruct (grad_fn t); [|discriminate]. rewrite Hd. reflexivity.
Qed.

Lemma requires_grad_node2_r (s : list Z) (d : list F) (a b : Tensor)
      (fa fb : list F -> list F) :
  requires_grad b = true ->
  requires_grad {| sizes := s; data := d; grad_fn := node2 a b fa fb |} = true.
Proof.
  intros H. unfold requires_grad at 1. cbn [grad_fn]. unfold node2.
  rewrite H, orb_true_r. reflexivity.
Qed.

Lemma bind_step {B : Type} (o : RMSpropOptions) (k : unit -> M RMSpropState B) (w : World) :
  bind (step o) k w =
  k tt {| rollouts := rollouts w;
          parameters := snd (rmsprop_step o (optimizer_state w) (parameters w) (grads w));
          grads := grads w;
          graph := graph w;
          views := views w;
          optimizer_state :=
            fst (rmsprop_step o (optimizer_state w) (parameters w) (grads w)) |}.
Proof. reflexivity. Qed.

(** ** [update] returns on well-shaped inputs *)

(** The statements below about a run that returns speak of something: on a
    storage of consistent sizes, with a policy that keeps its contract, the
    run does return. *)

Lemma update_run_returns (self : A2C) (w : World) (T P : Z) (od : list Z) (H A : Z) :
  storage_shaped (rollouts w) T P od H A ->
  get_hidden_size (policy self) = H ->
  policy_shaped (policy self) (parameters w) (T * P) P od A ->
  exists fr w', update_run self w = Ok (fr, w').
Proof.
  intros [HT HP Hod HH HA Hobs Hhid Hact Hrew Hmask Hret] Hsize Hpol.
  destruct (slice_drop_last (observations (rollouts w)) Hobs (proj1 HT))
    as (s_obs & Es_obs & Ss_obs & _ & _).
  destruct (slice_drop_last (masks (rollouts w)) Hmask (proj1 HT))
    as (s_mask & Es_mask & Ss_mask & _ & _).
  destruct (slice_drop_last (returns (rollouts w)) Hret (proj1 HT))
    as (s_ret & Es_ret & Ss_ret & _ & _).
  destruct (@index0_in_range (hidden_states (rollouts w)) _ _ 0 Hhid ltac:(lia))
    as (h0 & Eh0 & Sh0 & _).
  pose proof (@view_flatten s_obs T P od Ss_obs (proj1 HT) (proj1 HP) Hod) as Vobs.
  assert (Vhid : view h0 [-1; H] =
                 Ok {| sizes := [P; H]; data := data h0; grad_fn := grad_fn h0 |}).
  { apply view_ok. rewrite Sh0. cbn [numel fold_right].
    apply (@infer_leading [H] P); [repeat constructor; lia|lia]. }
  assert (Vmask : view s_mask [-1; 1] =
                  Ok {| sizes := [T * P; 1]; data := data s_mask;
                        grad_fn := grad_fn s_mask |}).
  { apply (@view_flatten s_mask T P [1]); try assumption; try lia.
    repeat constructor; lia. }
  assert (Vact : view (actions (rollouts w)) [-1; A] =
                 Ok {| sizes := [T * P; A]; data := data (actions (rollouts w));
                       grad_fn := grad_fn (actions (rollouts w)) |}).
  { apply (@view_flatten (actions (rollouts w)) T P [A]); try assumption; try lia.
    repeat constructor; lia. }
  destruct (Hpol _ _ _ _
              (eq_refl : sizes {| sizes := T * P :: od; data := data s_obs;
                                  grad_fn := grad_fn s_obs |} = _)
              (eq_trans (eq_refl : sizes {| sizes := [P; H]; data := data h0;
                                            grad_fn := grad_fn h0 |} = _)
                        (f_equal (fun x => [P; x]) (eq_sym Hsize)))
              (eq_refl : sizes {| sizes := [T * P; 1]; data := data s_mask;
                                  grad_fn := grad_fn s_mask |} = _)
              (eq_refl : sizes {| sizes := [T * P; A];
                                  data := data (actions (rollouts w));
                                  grad_fn := grad_fn (actions (rollouts w)) |} = _))
    as (ev & dv & dl & en & Eev & Eout).
  assert (E1 : from_third (sizes (observations (rollouts w))) = Ok od)
    by (rewrite Hobs; reflexivity).
  assert (E2 : size (actions (rollouts w)) (-1) = Ok A)
    by (unfold size; rewrite Hact; reflexivity).
  assert (E3 : array_ref_get (sizes (rewards (rollouts w))) 0 = Ok T)
    by (rewrite Hrew; reflexivity).
  assert (E4 : array_ref_get (sizes (rewards (rollouts w))) 1 = Ok P)
    by (rewrite Hrew; reflexivity).
  unfold update_run.
  rewrite bind_get_observations, (bind_lift _ _ E1).
  rewrite bind_get_actions, (bind_lift _ _ E2).
  rewrite bind_get_rewards, (bind_lift _ _ E3), (bind_lift _ _ E4).
  rewrite !to_int_small by assumption.
  assert (E5 : (s <~ slice (observations (rollouts w)) 0 0 (-1) ;;
                view s (-1 :: od))%outcome = Ok _)
    by (rewrite Es_obs; cbn [obind]; exact Vobs).
  rewrite bind_get_observations, (bind_lift _ _ E5).
  assert (E6 : (h <~ index0 (hidden_states (rollouts w)) 0 ;;
                view h [-1; get_hidden_size (policy self)])%outcome = Ok _)
    by (rewrite Eh0, Hsize; cbn [obind]; exact Vhid).
  rewrite bind_get_hidden_states, (bind_lift _ _ E6).
  assert (E7 : (s <~ slice (masks (rollouts w)) 0 0 (-1) ;;
                view s [-1; 1])%outcome = Ok _)
    by (rewrite Es_mask; cbn [obind]; exact Vmask).
  rewrite bind_get_masks, (bind_lift _ _ E7).
  rewrite bind_get_actions, (bind_lift _ _ Vact).
  erewrite bind_call_evaluate_actions by exact Eev. rewrite Eout.
  cbn [leaves length seq combine map fst snd].
  erewrite bind_lift
    by (cbn [vector_get nth_error obind];
        apply view_steps_processes; [reflexivity|lia|lia]).
  erewrite bind_lift
    by (cbn [vector_get nth_error obind];
        apply view_steps_processes; [reflexivity|lia|lia]).
  rewrite bind_get_returns. cbn [rollouts].
  erewrite bind_lift
    by (rewrite Es_ret; cbn [obind]; unfold sub;
        apply pointwise_same; rewrite Ss_ret; reflexivity).
  erewrite bind_lift
    by (unfold mul; rewrite pointwise_same by (cbn [detach sizes]; congruence);
        cbn [obind]; reflexivity).
  rewrite bind_zero_grad.
  erewrite bind_lift
    by (cbn [vector_get nth_error obind]; unfold add, sub;
        rewrite pointwise_same by reflexivity; cbn [obind];
        rewrite pointwise_same by reflexivity; reflexivity).
  erewrite bind_backward
    by (first [ apply requires_grad_node2_r; reflexivity
              | cbn [data mul_scalar mean neg map zip_with]; reflexivity ]).
  rewrite bind_step.
  match goal with
  | |- context [bind (reading _) _ ?W0] => set (W := W0)
  end.
  destruct (@now_single W 2 (leaf 2 ([], [en])) en eq_refl) as [en_now Hnow].
  erewrite bind_reading
    by (cbn [item data mean neg map obind vector_get nth_error]; unfold item;
        rewrite Hnow; reflexivity).
  eexists. eexists. reflexivity.
Qed.



(** ** Gradients through the nodes *)








Lemma update_inv (self : A2C) (w w' : World) (res : list UpdateDatum) :
  update self w = Ok (res, w') ->
  exists fr, update_run self w = Ok (fr, w') /\ res = returned fr.
Proof.
  unfold update. intros H. apply bind_ok in H.
  destruct H as (fr & w1 & Hrun & Hret). inversion Hret; subst.
  exists fr. auto.
Qed.

Lemma update_of_run (self : A2C) (w w' : World) (fr : Frame) :
  update_run self w = Ok (fr, w') -> update self w = Ok (returned fr, w').
Proof.
  intros H. unfold update, bind. rewrite H. reflexivity.
Qed.

(** ** The loss and its gradient *)




(** C7.  A call that returns leaves the storage as it was: the world it
    leaves differs from the one it started in by the parameters of the
    policy, their [.grad], the graph of the evaluation and the buffers of the
    optimizer only. *)
Theorem update_leaves_rollouts_unchanged
        (self : A2C) (w w' : World) (res : list UpdateDatum) :
  update self w = Ok (res, w') ->
  rollouts w' = rollouts w /\
  observations (rollouts w') = observations (rollouts w) /\
  actions (rollouts w') = actions (rollouts w) /\
  rewards (rollouts w') = rewards (rollouts w) /\
  masks (rollouts w') = masks (rollouts w) /\
  hidden_states (rollouts w') = hidden_states (rollouts w) /\
  returns (rollouts w') = returns (rollouts w).
Proof.
  intros H. apply update_inv in H. destruct H as (fr & Hrun & _).
  apply update_run_inv in Hrun. destruct Hrun. subst w'.
  cbn [world_after rollouts]. repeat split.
Qed.

(** ** The steps determine the run *)

Lemma loss_single (vl_t al_t entropy a l : Tensor) (c ce vl al en : F) :
  add (mul_scalar vl_t c) al_t = Ok a ->
  sub a (mul_scalar entropy ce) = Ok l ->
  data vl_t = [vl] -> data al_t = [al] -> data entropy = [en] ->
  data l = [fsub (fadd (fmul vl c) al) (fmul en ce)].
Proof.
  intros Ha Hl Hvl Hal Hen.
  unfold add in Ha. apply pointwise_inv in Ha. destruct Ha as [_ ->].
  unfold sub in Hl. apply pointwise_inv in Hl. destruct Hl as [_ ->].
  cbn [data mul_scalar]. rewrite Hvl, Hal, Hen. reflexivity.
Qed.

Lemma update_run_complete (self : A2C) (w w' : World) (fr : Frame) :
  run_steps self w fr w' -> update_run self w = Ok (fr, w').
Proof.
  intros [].
  assert (Hsingle : data (loss fr) =
                    [fsub (fadd (fmul vl (value_loss_coef self)) al)
                          (fmul en (entropy_coef self))])
    by (eapply loss_single; eassumption).
  destruct fr. cbn [obs_shape action_shape num_steps num_processes obs_batch
    hidden_batch mask_batch action_batch evaluate_result values action_log_probs
    advantages value_loss action_loss loss returned] in *.
  subst. unfold update_run.
  rewrite bind_get_observations. erewrite bind_lift by eassumption.
  rewrite bind_get_actions. erewrite bind_lift by eassumption.
  rewrite bind_get_rewards.
  erewrite bind_lift by eassumption. erewrite bind_lift by eassumption.
  rewrite bind_get_observations.
  erewrite bind_lift by (rewrite Hs_obs; cbn [obind]; eassumption).
  rewrite bind_get_hidden_states.
  erewrite bind_lift by (rewrite Hh0; cbn [obind]; eassumption).
  rewrite bind_get_masks.
  erewrite bind_lift by (rewrite Hs_mask; cbn [obind]; eassumption).
  rewrite bind_get_actions. erewrite bind_lift by eassumption.
  erewrite bind_call_evaluate_actions by eassumption.
  erewrite bind_lift
    by (unfold vector_get; rewrite Hr0; cbn [obind]; eassumption).
  erewrite bind_lift
    by (unfold vector_get; rewrite Hr1; cbn [obind]; eassumption).
  rewrite bind_get_returns. cbn [rollouts].
  erewrite bind_lift by (rewrite Hs_ret; cbn [obind]; eassumption).
  erewrite bind_lift by (rewrite Hm; cbn [obind]; reflexivity).
  rewrite bind_zero_grad.
  erewrite bind_lift
    by (unfold vector_get; rewrite Hentropy; cbn [obind]; rewrite Ha; cbn [obind];
        eassumption).
  erewrite bind_backward by eassumption.
  rewrite bind_step.
  match goal with
  | |- context [bind (reading _) _ ?W0] =>
    change (world_after _ _ _ _) with W0 in Hitem_now; set (W := W0) in *
  end.
  erewrite bind_reading
    by (unfold vector_get, item; rewrite Hitem_vl, Hitem_al, Hentropy; cbn [obind];
        rewrite Hitem_now; reflexivity).
  reflexivity.
Qed.

Lemma map_const_length {A B : Type} (c : B) (l1 l2 : list A) :
  length l1 = length l2 -> map (fun _ => c) l1 = map (fun _ => c) l2.
Proof.
  revert l2. induction l1 as [|x l1 IH]; intros [|y l2] H; simpl in *;
    try discriminate; [reflexivity|].
  f_equal. apply IH. lia.
Qed.

(** ** Determinism *)

(** C8.  Two calls from worlds with the same storage, the same parameters of
    the policy and the same buffers of the optimizer return the same three
    scalars and leave the same world, the parameters among it.  The stale
    [.grad] of the parameters (as many in both worlds) and the graph of an
    earlier evaluation do not matter: the first is zeroed, the second
    replaced, before [backward] runs. *)
Theorem update_deterministic
        (self : A2C) (w1 w2 w' : World) (res : list UpdateDatum) :
  rollouts w1 = rollouts w2 ->
  parameters w1 = parameters w2 ->
  optimizer_state w1 = optimizer_state w2 ->
  length (grads w1) = length (grads w2) ->
  update self w1 = Ok (res, w') ->
  update self w2 = Ok (res, w').
Proof.
  intros Hr Hp Ho Hg H. apply update_inv in H. destruct H as (fr & Hrun & ->).
  apply update_of_run. apply update_run_complete.
  apply update_run_inv in Hrun. destruct Hrun.
  rewrite Hr, ?Hp in *.
  econstructor; try eassumption.
  subst w'. unfold world_after, grads_after.
  rewrite Hr, Hp, Ho, (map_const_length fzero _ _ Hg). reflexivity.
Qed.

(** ** The hidden states *)

Lemma index0_same_slot_0 (a b : Tensor) :
  same_slot_0 a b -> index0 a 0 = index0 b 0.
Proof.
  intros (Hs & Hg & Hd). unfold index0. rewrite <- Hs.
  destruct (sizes a) as [|n rest]; [reflexivity|].
  cbn [tl] in Hd. change (0 <? 0) with false. cbv iota.
  cbn [Z.mul Z.to_nat skipn]. rewrite Hd. unfold node1. rewrite Hg. reflexivity.
Qed.

(** C10.  Of the hidden states [update] reads slot 0 only: two calls on
    storages that differ in the hidden states of the later slots alone return
    the same three scalars and leave the same parameters, gradients and
    optimizer buffers. *)
Theorem update_reads_hidden_slot_0
        (self : A2C) (w1 w2 w1' : World) (res : list UpdateDatum) :
  observations (rollouts w1) = observations (rollouts w2) ->
  actions (rollouts w1) = actions (rollouts w2) ->
  rewards (rollouts w1) = rewards (rollouts w2) ->
  masks (rollouts w1) = masks (rollouts w2) ->
  returns (rollouts w1) = returns (rollouts w2) ->
  same_slot_0 (hidden_states (rollouts w1)) (hidden_states (rollouts w2)) ->
  parameters w1 = parameters w2 ->
  grads w1 = grads w2 ->
  optimizer_state w1 = optimizer_state w2 ->
  update self w1 = Ok (res, w1') ->
  exists w2',
    update self w2 = Ok (res, w2') /\
    parameters w2' = parameters w1' /\
    grads w2' = grads w1' /\
    optimizer_state w2' = optimizer_state w1' /\
    rollouts w2' = rollouts w2.
Proof.
  intros Hobs Hact Hrew Hmask Hret Hhid Hp Hg Ho H.
  apply update_inv in H. destruct H as (fr & Hrun & ->).
  apply update_run_inv in Hrun. destruct Hrun.
  apply index0_same_slot_0 in Hhid.
  assert (Hnow : now (world_after self ev (loss fr) w2) 2 entropy = now w1' 2 entropy)
    by (subst w1'; unfold now, world_after, grads_after; cbn [views parameters];
        rewrite Hp, Hg, Ho; reflexivity).
  rewrite ?Hobs, ?Hact, ?Hrew, ?Hmask, ?Hret, ?Hhid, ?Hp in *.
  exists (world_after self ev (loss fr) w2). split.
  - apply update_of_run. apply update_run_complete.
    econstructor; try eassumption; first [reflexivity | rewrite Hnow; eassumption].
  - subst w1'. unfold world_after, grads_after. cbn [parameters grads optimizer_state
      rollouts]. rewrite Hp, Hg, Ho. repeat split; reflexivity.
Qed.

(** ** Flattening and the (step, process) layout *)






(** ** What [update] returns *)




(** ** The construction parameters *)

(** [max_grad_norm] is stored by the constructor and read by nothing in
    [update]: whatever its value, the call does the same. *)
Lemma update_ignores_max_grad_norm
      (pol : Policy) (vc ec lr e al m m' : F) (w : World) :
  update (A2C_new pol vc ec lr e al m) w = update (A2C_new pol vc ec lr e al m') w.
Proof. reflexivity. Qed.

(** C9, amended.  The constructor takes the six scalars when all are
    supplied.  They need not all be: whatever the declaration, if the
    construction in the test of the repository, [A2C a2c(policy, 1.0, 1e-7,
    0.1)], is well-formed, then the optimizer's epsilon and alpha and the
    max-gradient-norm have default arguments, and the object built holds the
    three scalars supplied and these three defaults. *)
Theorem test_case_construction_uses_defaults (d : defaults) (pol : Policy) :
  length d = 6%nat ->
  (forall x1 x2 x3 x4 x5 x6 : F,
      construct d pol [x1; x2; x3; x4; x5; x6] =
      Some (A2C_new pol x1 x2 x3 x4 x5 x6)) /\
  (forall a : A2C,
      construct d pol test_case_arguments = Some a ->
      exists e al m : F,
        nth_error d 3 = Some (Some e) /\
        nth_error d 4 = Some (Some al) /\
        nth_error d 5 = Some (Some m) /\
        a = A2C_new pol (of_Q 1) (of_Q (1 # 10000000)) (of_Q (1 # 10)) e al m).
Proof.
  intros Hlen.
  destruct d as [|d1 [|d2 [|d3 [|d4 [|d5 [|d6 [|d7 d]]]]]]]; try discriminate Hlen.
  split.
  - intros. unfold construct. cbn. reflexivity.
  - intros a. unfold construct, test_case_arguments.
    cbn [complete_arguments].
    destruct d4 as [e|], d5 as [al|], d6 as [m|]; cbn; try discriminate.
    intros H. inversion H. exists e, al, m. repeat split.
Qed.

(** * Further properties of [update] *)

(** ** What [update] reads of the storage *)

Lemma slice_same_but_last (a b : Tensor) :
  same_but_last a b -> slice a 0 0 (-1) = slice b 0 0 (-1).
Proof.
  intros (Hs & Hg & Hd). unfold slice. rewrite <- Hs.
  destruct (sizes a) as [|n rest]; [reflexivity|].
  cbn [hd tl] in Hd. cbn [negb Z.eqb].
  change (0 <? 0) with false. change (-1 <? 0) with true. cbv iota.
  unfold node1. rewrite Hg.
  destruct (Z.leb_spec n 0) as [Hn|Hn]; change (0 <? 0) with false; cbv iota.
  - assert (He : (if -1 + n <? n then n else if n <=? -1 + n then n else -1 + n) = n)
      by (zbool; reflexivity).
    rewrite He, Z.sub_diag. reflexivity.
  - assert (He : (if -1 + n <? 0 then 0 else if n <=? -1 + n then n else -1 + n)
                 = n - 1) by (zbool; lia).
    rewrite He. cbn [Z.mul Z.to_nat skipn]. rewrite Z.sub_0_r, Hd. reflexivity.
Qed.

(** X8.  The hidden states handed to the policy are those of slot 0 alone: one
    row per process, [P] rows, not one per transition. *)
Theorem hidden_batch_is_slot_0
        (self : A2C) (w w' : World) (fr : Frame) (T P H : Z) :
  update_run self w = Ok (fr, w') ->
  sizes (hidden_states (rollouts w)) = [T + 1; P; H] ->
  get_hidden_size (policy self) = H ->
  0 <= T -> 0 <= P -> 0 < H ->
  sizes (hidden_batch fr) = [P; H] /\
  data (hidden_batch fr) =
    firstn (Z.to_nat (P * H)) (data (hidden_states (rollouts w))).
Proof.
  intros Hrun Hs Hsize HT HP HH. apply update_run_inv in Hrun. destruct Hrun.
  destruct (@index0_in_range (hidden_states (rollouts w)) _ _ 0 Hs ltac:(lia))
    as (h1 & Eh1 & Sh1 & Dh1).
  rewrite Eh1 in Hh0. inversion Hh0; subst h1; clear Hh0.
  rewrite Hsize in Hhid. unfold view in Hhid. rewrite Sh1 in Hhid.
  change (numel [P; H]) with (P * numel [H]) in Hhid.
  rewrite (@infer_leading [H] P) in Hhid by (repeat constructor; lia).
  cbn [obind] in Hhid. inversion Hhid as [E]. cbn [sizes data].
  split; [reflexivity|]. rewrite Dh1. cbn [numel fold_right Z.mul Z.to_nat skipn].
  replace (P * (H * 1)) with (P * H) by ring. reflexivity.
Qed.

(** ** Inputs [update] does not guard against *)

Lemma bind_unknown {A B : Type} (m : M RMSpropState A) (k : A -> M RMSpropState B)
      (w : World) :
  m w = Unknown -> bind m k w = Unknown.
Proof.
  intros H. unfold bind. rewrite H. reflexivity.
Qed.

Lemma bind_throws {A B : Type} (m : M RMSpropState A) (k : A -> M RMSpropState B)
      (w : World) :
  m w = Throws -> bind m k w = Throws.
Proof.
  intros H. unfold bind. rewrite H. reflexivity.
Qed.

Lemma bind_lift_unknown {A B : Type} (o : outcome A) (k : A -> M RMSpropState B)
      (w : World) :
  o = Unknown -> bind (lift o) k w = Unknown.
Proof.
  intros H. subst o. reflexivity.
Qed.

Lemma bind_lift_throws {A B : Type} (o : outcome A) (k : A -> M RMSpropState B)
      (w : World) :
  o = Throws -> bind (lift o) k w = Throws.
Proof.
  intros H. subst o. reflexivity.
Qed.

(** X9.  Observations of fewer than two dimensions: the copy of the sizes from
    the third on starts past their end, which C++ leaves undefined. *)
Theorem observations_need_two_dimensions (self : A2C) (w : World) :
  (length (sizes (observations (rollouts w))) < 2)%nat ->
  update self w = Unknown.
Proof.
  intros H. unfold update. apply bind_unknown. unfold update_run.
  rewrite bind_get_observations. apply bind_lift_unknown.
  destruct (sizes (observations (rollouts w))) as [|a [|b l]]; try reflexivity.
  cbn in H. lia.
Qed.

(** A [view] to sizes without -1 succeeds when the numbers of elements
    agree, and throws otherwise. *)
Lemma infer_plain (shape : list Z) (n : Z) :
  Forall (fun d => 0 <= d) shape ->
  infer_size shape n = if n =? numel shape then Ok shape else Throws.
Proof.
  intros Hs. destruct (Z.eqb_spec n (numel shape)) as [E|E].
  - apply infer_exact; assumption.
  - unfold infer_size.
    assert (He : existsb (fun d => d <? -1) shape = false).
    { clear E. induction Hs as [|d s Hd _ IH]; simpl; [reflexivity|].
      rewrite IH. zbool; reflexivity. }
    assert (Hf : filter (fun d => negb (d =? -1)) shape = shape).
    { clear E He. induction Hs as [|d s Hd _ IH]; simpl; [reflexivity|].
      zbool; simpl; rewrite IH; reflexivity. }
    assert (Hc : count_occ Z.eq_dec shape (-1) = O).
    { clear E He Hf. induction Hs as [|d s Hd _ IH]; simpl; [reflexivity|].
      destruct (Z.eq_dec d (-1)); [lia|assumption]. }
    rewrite He, Hf, Hc. apply Z.eqb_neq in E. rewrite E. reflexivity.
Qed.

(** The four batches [update] hands to the policy, on a well-shaped storage. *)
Lemma batches_of_shaped (self : A2C) (w : World) (T P : Z) (od : list Z) (H A : Z) :
  storage_shaped (rollouts w) T P od H A ->
  get_hidden_size (policy self) = H ->
  exists ob hb mb ab : Tensor,
    (s <~ slice (observations (rollouts w)) 0 0 (-1) ;; view s (-1 :: od))%outcome
    = Ok ob /\
    (h <~ index0 (hidden_states (rollouts w)) 0 ;;
     view h [-1; get_hidden_size (policy self)])%outcome = Ok hb /\
    (s <~ slice (masks (rollouts w)) 0 0 (-1) ;; view s [-1; 1])%outcome = Ok mb /\
    view (actions (rollouts w)) [-1; A] = Ok ab /\
    sizes ob = T * P :: od /\
    sizes hb = [P; get_hidden_size (policy self)] /\
    sizes mb = [T * P; 1] /\
    sizes ab = [T * P; A].
Proof.
  intros [HT HP Hod HH HA Hobs Hhid Hact Hrew Hmask Hret] Hsize.
  destruct (slice_drop_last (observations (rollouts w)) Hobs (proj1 HT))
    as (s_obs & Es_obs & Ss_obs & _ & _).
  destruct (slice_drop_last (masks (rollouts w)) Hmask (proj1 HT))
    as (s_mask & Es_mask & Ss_mask & _ & _).
  destruct (@index0_in_range (hidden_states (rollouts w)) _ _ 0 Hhid ltac:(lia))
    as (h0 & Eh0 & Sh0 & _).
  do 4 eexists.
  split; [rewrite Es_obs; cbn [obind];
          apply (@view_flatten s_obs T P od); [assumption|lia|lia|assumption]|].
  split; [rewrite Eh0, Hsize; cbn [obind]; apply view_ok; rewrite Sh0;
          change (numel [P; H]) with (P * numel [H]);
          apply (@infer_leading [H] P); [repeat constructor; lia|lia]|].
  split; [rewrite Es_mask; cbn [obind];
          apply (@view_flatten s_mask T P [1]);
          [assumption|lia|lia|repeat constructor; lia]|].
  split; [apply (@view_flatten (actions (rollouts w)) T P [A]);
          [assumption|lia|lia|repeat constructor; lia]|].
  cbn [sizes]. rewrite Hsize. repeat split.
Qed.

(** Runs [update_run] forward to the tensors the policy returned. *)
Ltac run_to_evaluation Hst Hsize Eo Eh Em Ea Eev :=
  unfold update_run;
  rewrite bind_get_observations;
  erewrite bind_lift by (rewrite (observations_sizes Hst); reflexivity);
  rewrite bind_get_actions;
  erewrite bind_lift by (unfold size; rewrite (actions_sizes Hst); reflexivity);
  rewrite bind_get_rewards;
  erewrite bind_lift by (rewrite (rewards_sizes Hst); reflexivity);
  erewrite bind_lift by (rewrite (rewards_sizes Hst); reflexivity);
  rewrite !to_int_small by (first [exact (steps_range Hst)|exact (processes_range Hst)]);
  rewrite bind_get_observations, (bind_lift _ _ Eo);
  rewrite bind_get_hidden_states, (bind_lift _ _ Eh);
  rewrite bind_get_masks, (bind_lift _ _ Em);
  rewrite bind_get_actions, (bind_lift _ _ Ea);
  erewrite bind_call_evaluate_actions by exact Eev.

(** X5.  When the policy returns values or log-probabilities that are not one
    per transition, [update] throws: the [view] to [(num_steps,
    num_processes, 1)] fails. *)
Theorem update_throws_on_miscounted_outputs
        (self : A2C) (w : World) (T P : Z) (od : list Z) (H A : Z) :
  storage_shaped (rollouts w) T P od H A ->
  get_hidden_size (policy self) = H ->
  policy_returns (policy self) (parameters w) (T * P) P od A (miscounted (T * P)) ->
  update self w = Throws.
Proof.
  intros Hst Hsize Hpol.
  destruct (@batches_of_shaped self w T P od H A Hst Hsize)
    as (ob & hb & mb & ab & Eo & Eh & Em & Ea & So & Sh & Sm & Sa).
  destruct (Hpol ob hb mb ab So Sh Sm Sa)
    as (ev & Eev & (s0 & d0 & s1 & d1 & more & Eout & Hbad)).
  pose proof (steps_range Hst) as HT. pose proof (processes_range Hst) as HP.
  assert (Hshape : Forall (fun d => 0 <= d) [T; P; 1]) by (repeat constructor; lia).
  assert (Hnumel : numel [T; P; 1] = T * P) by (cbn [numel fold_right]; ring).
  unfold update. apply bind_throws.
  run_to_evaluation Hst Hsize Eo Eh Em Ea Eev.
  rewrite Eout. cbn [leaves length seq combine map fst snd].
  destruct (Z.eq_dec (numel s0) (T * P)) as [E0|E0].
  - erewrite bind_lift
      by (cbn [vector_get nth_error obind]; apply view_ok; cbn [sizes leaf fst];
          apply infer_exact; [exact Hshape|congruence]).
    apply bind_lift_throws. cbn [vector_get nth_error obind]. unfold view.
    cbn [sizes leaf fst]. rewrite (infer_plain _ Hshape), Hnumel.
    destruct Hbad as [Hbad|Hbad]; [contradiction|].
    apply Z.eqb_neq in Hbad. rewrite Hbad. reflexivity.
  - apply bind_lift_throws. cbn [vector_get nth_error obind]. unfold view.
    cbn [sizes leaf fst]. rewrite (infer_plain _ Hshape), Hnumel.
    apply Z.eqb_neq in E0. rewrite E0. reflexivity.
Qed.

(** X6.  When the policy returns the values and the log-probabilities without an
    entropy, [update] reads the third element of a vector of two: it does not
    check how many tensors came back. *)
Theorem update_reads_past_two_outputs
        (self : A2C) (w : World) (T P : Z) (od : list Z) (H A : Z) :
  storage_shaped (rollouts w) T P od H A ->
  get_hidden_size (policy self) = H ->
  policy_returns (policy self) (parameters w) (T * P) P od A (without_entropy (T * P)) ->
  update self w = Unknown.
Proof.
  intros Hst Hsize Hpol.
  destruct (@batches_of_shaped self w T P od H A Hst Hsize)
    as (ob & hb & mb & ab & Eo & Eh & Em & Ea & So & Sh & Sm & Sa).
  destruct (Hpol ob hb mb ab So Sh Sm Sa) as (ev & Eev & (dv & dl & Eout)).
  pose proof (steps_range Hst) as HT. pose proof (processes_range Hst) as HP.
  destruct (slice_drop_last (returns (rollouts w)) (returns_sizes Hst) (proj1 HT))
    as (s_ret & Es_ret & Ss_ret & _ & _).
  unfold update. apply bind_unknown.
  run_to_evaluation Hst Hsize Eo Eh Em Ea Eev.
  rewrite Eout. cbn [leaves length seq combine map fst snd].
  erewrite bind_lift
    by (cbn [vector_get nth_error obind];
        apply view_steps_processes; [reflexivity|lia|lia]).
  erewrite bind_lift
    by (cbn [vector_get nth_error obind];
        apply view_steps_processes; [reflexivity|lia|lia]).
  rewrite bind_get_returns. cbn [rollouts].
  erewrite bind_lift
    by (rewrite Es_ret; cbn [obind]; unfold sub;
        apply pointwise_same; rewrite Ss_ret; reflexivity).
  erewrite bind_lift
    by (unfold mul; rewrite pointwise_same by (cbn [detach sizes]; congruence);
        cbn [obind]; reflexivity).
  rewrite bind_zero_grad.
  apply bind_lift_unknown. reflexivity.
Qed.

(** ** The gradient the policy receives *)





(** ** An empty rollout *)

(** X4.  [update] has no guard against a rollout of no transitions (no steps or
    no processes): it runs, the advantages are empty, and the value loss and
    the action loss it returns are the empty sum divided by zero, and its
    negation. *)
Theorem empty_rollout_divides_by_zero
        (self : A2C) (w : World) (T P : Z) (od : list Z) (H A : Z) :
  storage_shaped (rollouts w) T P od H A ->
  get_hidden_size (policy self) = H ->
  policy_shaped (policy self) (parameters w) (T * P) P od A ->
  T * P = 0 ->
  exists (w' : World) (fr : Frame) (en : F),
    update_run self w = Ok (fr, w') /\
    data (advantages fr) = [] /\
    update self w =
    Ok ([ {| name := "Value loss"; value := fdiv (fsum []) (of_Z 0) |};
          {| name := "Action loss"; value := fneg (fdiv (fsum []) (of_Z 0)) |};
          {| name := "Entropy"; value := en |} ], w').
Proof.
  intros Hst Hsize Hpol Hzero.
  destruct (@update_run_returns self w T P od H A Hst Hsize Hpol) as (fr & w' & Hrun).
  pose proof Hrun as Hup. apply update_of_run in Hup.
  pose proof Hrun as Hs. apply update_run_inv in Hs. destruct Hs.
  pose proof (steps_range Hst) as HT.
  destruct (slice_drop_last (returns (rollouts w)) (returns_sizes Hst) (proj1 HT))
    as (s & Es & Ss & Ds & _).
  rewrite Es in Hs_ret. inversion Hs_ret; subst s; clear Hs_ret.
  cbn [numel fold_right] in Ds.
  replace (T * (P * (1 * 1))) with (T * P) in Ds by ring.
  rewrite Hzero in Ds. cbn [Z.to_nat firstn] in Ds.
  unfold sub in Hadv. apply pointwise_inv in Hadv. destruct Hadv as [_ Hadv].
  assert (Dadv : data (advantages fr) = []) by (rewrite Hadv; cbn [data]; rewrite Ds;
                                                reflexivity).
  assert (Sadv : numel (sizes (advantages fr)) = 0).
  { rewrite Hadv. cbn [sizes]. rewrite Ss. cbn [numel fold_right].
    replace (T * (P * (1 * 1))) with (T * P) by ring. assumption. }
  unfold mul in Hm. apply pointwise_inv in Hm. destruct Hm as [_ Hm].
  rewrite Hvl in Hitem_vl. cbn [mean pow data sizes] in Hitem_vl.
  rewrite Dadv, Sadv in Hitem_vl. cbn [map] in Hitem_vl.
  rewrite Hal, Hm in Hitem_al. cbn [neg mean detach data sizes map] in Hitem_al.
  rewrite Dadv, Sadv in Hitem_al. cbn [zip_with] in Hitem_al.
  inversion Hitem_vl; subst vl. inversion Hitem_al; subst al.
  exists w', fr, en_now. split; [assumption|]. split; [assumption|].
  rewrite Hup, Hreturned. reflexivity.
Qed.

(** ** The game of the test *)

(** X10.  The reward a process earns is the entry of the observation that its
    action selects: 1 for the action at the place of the 1, 0 for the other. *)
Theorem reward_is_selected_observation_entry
        (bit : bool) (a0 a1 : Z) (obs : list F) (target : Z) (r : Tensor) :
  draw_game bit = (obs, target) ->
  rewards_of [a0; a1] target = Ok r ->
  0 <= a0 <= 1 ->
  0 <= a1 <= 1 ->
  sizes r = [2; 1] /\
  data r = [nth (Z.to_nat a0) obs fzero; nth (Z.to_nat a1) obs fzero].
Proof.
  intros Hgame Hr H0 H1.
  assert (E0 : a0 = 0 \/ a0 = 1) by lia. assert (E1 : a1 = 0 \/ a1 = 1) by lia.
  destruct bit; cbn [draw_game] in Hgame; inversion Hgame; subst obs target;
    destruct E0 as [-> | ->], E1 as [-> | ->];
    cbn in Hr; inversion Hr; subst r; split; reflexivity.
Qed.

(** With other than two actions the rewards are not defined: the loop
    writes past [rewards_array], or leaves part of it unwritten. *)
Lemma rewards_need_two_actions (actions : list Z) (target : Z) :
  length actions <> 2%nat -> rewards_of actions target = Unknown.
Proof.
  intros H. destruct actions as [|a [|b [|c l]]]; try reflexivity.
  cbn in H. congruence.
Qed.

End Properties.

(** * What the run does not depend on *)

Section Transfer.

Context {F : Type} {ops : FloatOps F} {RMSpropState : Type}.
Variables step1 step2 :
  RMSpropOptions (F := F) -> RMSpropState -> list F -> list F -> RMSpropState * list F.

(** A run goes the same way from any world, and for any algorithm object,
    that agrees on what the body reads before the step: the policy and the two
    coefficients, the parameters, the sizes of the observations and of the
    rewards, the slots before the last of the observations, masks and returns,
    slot 0 of the hidden states, and the actions.  What may differ is the
    entropy returned, read after the step. *)
Lemma run_steps_transfer
      (self1 self2 : @A2C F) (w1 w2 w1' : @World F RMSpropState) (fr : @Frame F) :
  policy self1 = policy self2 ->
  value_loss_coef self1 = value_loss_coef self2 ->
  entropy_coef self1 = entropy_coef self2 ->
  parameters w1 = parameters w2 ->
  sizes (observations (rollouts w1)) = sizes (observations (rollouts w2)) ->
  slice (observations (rollouts w1)) 0 0 (-1) =
  slice (observations (rollouts w2)) 0 0 (-1) ->
  index0 (hidden_states (rollouts w1)) 0 = index0 (hidden_states (rollouts w2)) 0 ->
  slice (masks (rollouts w1)) 0 0 (-1) = slice (masks (rollouts w2)) 0 0 (-1) ->
  actions (rollouts w1) = actions (rollouts w2) ->
  sizes (rewards (rollouts w1)) = sizes (rewards (rollouts w2)) ->
  slice (returns (rollouts w1)) 0 0 (-1) = slice (returns (rollouts w2)) 0 0 (-1) ->
  run_steps step1 self1 w1 fr w1' ->
  exists (ev : @Evaluation F) (vl al en en1 en2 : F) (entropy : @Tensor F),
    w1' = world_after step1 self1 ev (loss fr) w1 /\
    returned fr = [ {| name := "Value loss"; value := vl |};
                    {| name := "Action loss"; value := al |};
                    {| name := "Entropy"; value := en1 |} ] /\
    data entropy = [en] /\
    data (now (world_after step1 self1 ev (loss fr) w1) 2 entropy) = [en1] /\
    data (now (world_after step2 self2 ev (loss fr) w2) 2 entropy) = [en2] /\
    run_steps step2 self2 w2
      (with_returned fr [ {| name := "Value loss"; value := vl |};
                          {| name := "Action loss"; value := al |};
                          {| name := "Entropy"; value := en2 |} ])
      (world_after step2 self2 ev (loss fr) w2).
Proof.
  intros Hpol Hvc Hec Hp Hso Hobs Hhid Hmask Hact Hrew Hret Hrun.
  destruct Hrun.
  destruct (now_single (world_after step2 self2 ev (loss fr) w2) 2 entropy Hitem_en)
    as [en2 Hen2].
  exists ev, vl, al, en, en_now, en2, entropy.
  split; [assumption|]. split; [assumption|]. split; [assumption|].
  split; [subst w1'; assumption|]. split; [assumption|].
  rewrite ?Hpol, ?Hvc, ?Hec, ?Hp, ?Hso, ?Hobs, ?Hhid, ?Hmask, ?Hact, ?Hrew, ?Hret in *.
  econstructor; cbn [with_returned obs_shape action_shape num_steps num_processes
    obs_batch hidden_batch mask_batch action_batch evaluate_result values
    action_log_probs advantages value_loss action_loss loss returned];
    try eassumption; reflexivity.
Qed.

(** When the parameters after the step agree, so does what is read of them. *)
Lemma now_after_agree
      (self1 self2 : @A2C F) (w1 w2 : @World F RMSpropState) (ev : @Evaluation F)
      (l t : @Tensor F) (i : nat) :
  parameters (world_after step1 self1 ev l w1) =
  parameters (world_after step2 self2 ev l w2) ->
  now (world_after step1 self1 ev l w1) i t = now (world_after step2 self2 ev l w2) i t.
Proof.
  intros H. unfold now. rewrite H. reflexivity.
Qed.

End Transfer.

Section Independence.

Context {F : Type} {ops : FloatOps F} {RMSpropState : Type}.
Variables step1 step2 :
  RMSpropOptions (F := F) -> RMSpropState -> list F -> list F -> RMSpropState * list F.

(** X1.  [update] never reads the last slot of the observations, of the masks
    or of the returns (the slot of the bootstrap value): two calls on storages
    that differ there alone return the same three scalars and leave the same
    parameters, gradients and optimizer buffers. *)
Theorem update_ignores_last_slot
        (self : @A2C F) (w1 w2 w1' : @World F RMSpropState)
        (res : list (@UpdateDatum F)) :
  same_but_last (observations (rollouts w1)) (observations (rollouts w2)) ->
  same_but_last (masks (rollouts w1)) (masks (rollouts w2)) ->
  same_but_last (returns (rollouts w1)) (returns (rollouts w2)) ->
  hidden_states (rollouts w1) = hidden_states (rollouts w2) ->
  actions (rollouts w1) = actions (rollouts w2) ->
  rewards (rollouts w1) = rewards (rollouts w2) ->
  parameters w1 = parameters w2 ->
  grads w1 = grads w2 ->
  optimizer_state w1 = optimizer_state w2 ->
  update step1 self w1 = Ok (res, w1') ->
  exists w2',
    update step1 self w2 = Ok (res, w2') /\
    parameters w2' = parameters w1' /\
    grads w2' = grads w1' /\
    optimizer_state w2' = optimizer_state w1'.
Proof.
  intros Hobs Hmask Hret Hhid Hact Hrew Hp Hg Ho H.
  apply update_inv in H. destruct H as (fr & Hrun & ->).
  apply update_run_inv in Hrun.
  destruct (@run_steps_transfer F ops RMSpropState step1 step1 self self w1 w2 w1' fr
              eq_refl eq_refl eq_refl Hp
              (proj1 Hobs) (slice_same_but_last Hobs) (f_equal (fun t => index0 t 0) Hhid)
              (slice_same_but_last Hmask) Hact (f_equal (@sizes F) Hrew)
              (slice_same_but_last Hret) Hrun)
    as (ev & vl & al & en & en1 & en2 & entropy & -> & Hres & _ & Hn1 & Hn2 & Hrun2).
  assert (Hpar : parameters (world_after step1 self ev (loss fr) w1) =
                 parameters (world_after step1 self ev (loss fr) w2))
    by (unfold world_after, grads_after; cbn [parameters]; rewrite Hp, Hg, Ho;
        reflexivity).
  rewrite (now_after_agree step1 step1 self self w1 w2 ev (loss fr) entropy 2 Hpar)
    in Hn1.
  assert (en2 = en1) by congruence. subst en2.
  apply update_run_complete, update_of_run in Hrun2. cbn [with_returned returned] in Hrun2.
  eexists. split; [rewrite Hres; exact Hrun2|].
  unfold world_after, grads_after. cbn [parameters grads optimizer_state].
  rewrite Hp, Hg, Ho. repeat split.
Qed.

(** X2.  Of the rewards [update] reads the sizes only (the number of steps and of
    processes): their elements act on a call through the returns computed
    beforehand, not through the storage. *)
Theorem update_reads_sizes_of_rewards
        (self : @A2C F) (w1 w2 w1' : @World F RMSpropState)
        (res : list (@UpdateDatum F)) :
  sizes (rewards (rollouts w1)) = sizes (rewards (rollouts w2)) ->
  observations (rollouts w1) = observations (rollouts w2) ->
  hidden_states (rollouts w1) = hidden_states (rollouts w2) ->
  actions (rollouts w1) = actions (rollouts w2) ->
  masks (rollouts w1) = masks (rollouts w2) ->
  returns (rollouts w1) = returns (rollouts w2) ->
  parameters w1 = parameters w2 ->
  grads w1 = grads w2 ->
  optimizer_state w1 = optimizer_state w2 ->
  update step1 self w1 = Ok (res, w1') ->
  exists w2',
    update step1 self w2 = Ok (res, w2') /\
    parameters w2' = parameters w1' /\
    grads w2' = grads w1' /\
    optimizer_state w2' = optimizer_state w1'.
Proof.
  intros Hrew Hobs Hhid Hact Hmask Hret Hp Hg Ho H.
  apply update_inv in H. destruct H as (fr & Hrun & ->).
  apply update_run_inv in Hrun.
  destruct (@run_steps_transfer F ops RMSpropState step1 step1 self self w1 w2 w1' fr
              eq_refl eq_refl eq_refl Hp
              (f_equal (@sizes F) Hobs) (f_equal (fun t => slice t 0 0 (-1)) Hobs)
              (f_equal (fun t => index0 t 0) Hhid)
              (f_equal (fun t => slice t 0 0 (-1)) Hmask) Hact Hrew
              (f_equal (fun t => slice t 0 0 (-1)) Hret) Hrun)
    as (ev & vl & al & en & en1 & en2 & entropy & -> & Hres & _ & Hn1 & Hn2 & Hrun2).
  assert (Hpar : parameters (world_after step1 self ev (loss fr) w1) =
                 parameters (world_after step1 self ev (loss fr) w2))
    by (unfold world_after, grads_after; cbn [parameters]; rewrite Hp, Hg, Ho;
        reflexivity).
  rewrite (now_after_agree step1 step1 self self w1 w2 ev (loss fr) entropy 2 Hpar)
    in Hn1.
  assert (en2 = en1) by congruence. subst en2.
  apply update_run_complete, update_of_run in Hrun2. cbn [with_returned returned] in Hrun2.
  eexists. split; [rewrite Hres; exact Hrun2|].
  unfold world_after, grads_after. cbn [parameters grads optimizer_state].
  rewrite Hp, Hg, Ho. repeat split.
Qed.

(** X7.  The value loss and the action loss returned, and the gradient
    computed, are those of the parameters the call started with: they depend
    neither on the optimizer (its rule, its options, its buffers) nor on
    [max_grad_norm] nor on stale gradients.  The same holds of the entropy
    returned when the tensor the policy returned for it has storage of its
    own; one that shares the storage of a parameter is read after the step. *)
Theorem diagnostics_independent_of_optimizer
        (self1 self2 : @A2C F) (w1 w2 w1' : @World F RMSpropState)
        (res : list (@UpdateDatum F)) :
  policy self1 = policy self2 ->
  value_loss_coef self1 = value_loss_coef self2 ->
  entropy_coef self1 = entropy_coef self2 ->
  rollouts w1 = rollouts w2 ->
  parameters w1 = parameters w2 ->
  length (grads w1) = length (grads w2) ->
  update step1 self1 w1 = Ok (res, w1') ->
  exists res2 w2',
    update step2 self2 w2 = Ok (res2, w2') /\
    grads w2' = grads w1' /\
    map (@name F) res2 = map (@name F) res /\
    firstn 2 res2 = firstn 2 res /\
    (views w1' 2 = None -> res2 = res).
Proof.
  intros Hpol Hvc Hec Hr Hp Hg H.
  apply update_inv in H. destruct H as (fr & Hrun & ->).
  apply update_run_inv in Hrun.
  destruct (@run_steps_transfer F ops RMSpropState step1 step2 self1 self2 w1 w2 w1' fr
              Hpol Hvc Hec Hp
              (f_equal (fun r => sizes (observations r)) Hr)
              (f_equal (fun r => slice (observations r) 0 0 (-1)) Hr)
              (f_equal (fun r => index0 (hidden_states r) 0) Hr)
              (f_equal (fun r => slice (masks r) 0 0 (-1)) Hr)
              (f_equal (@actions F) Hr)
              (f_equal (fun r => sizes (rewards r)) Hr)
              (f_equal (fun r => slice (returns r) 0 0 (-1)) Hr) Hrun)
    as (ev & vl & al & en & en1 & en2 & entropy & -> & Hres & Hen & Hn1 & Hn2 & Hrun2).
  apply update_run_complete, update_of_run in Hrun2. cbn [with_returned returned] in Hrun2.
  do 2 eexists. split; [exact Hrun2|].
  split; [unfold world_after, grads_after; cbn [grads];
          rewrite (map_const_length fzero _ _ Hg); reflexivity|].
  rewrite Hres. split; [reflexivity|]. split; [reflexivity|].
  cbn [world_after views]. intros Hown.
  unfold now in Hn1, Hn2. cbn [world_after views] in Hn1, Hn2.
  rewrite Hown in Hn1, Hn2. congruence.
Qed.

End Independence.

(** * The statements at the concrete instance *)

Module Checks.

Import Example.
#[local] Open Scope Q_scope.

Lemma storage_is_shaped : storage_shaped storage 2 2 [1%Z] 1 1.
Proof.
  constructor; try reflexivity; try lia. repeat constructor.
Defined.









Lemma update_leaves_rollouts_unchanged_witness :
  exists res w',
    update plain_step (a2c (1 # 2)) (world [7; 7]) = Ok (res, w') /\
    rollouts w' = storage.
Proof.
  destruct (update plain_step (a2c (1 # 2)) (world [7; 7])) as [[res w']| |] eqn:E;
    [|vm_compute in E; discriminate E ..].
  exists res, w'. split; [reflexivity|].
  exact (proj1 (update_leaves_rollouts_unchanged plain_step _ _ E)).
Defined.

Lemma update_deterministic_witness :
  exists res w',
    update plain_step (a2c (1 # 2)) (world [7; 7]) = Ok (res, w') /\
    update plain_step (a2c (1 # 2)) (world [0; 0]) = Ok (res, w').
Proof.
  destruct (update plain_step (a2c (1 # 2)) (world [7; 7])) as [[res w']| |] eqn:E;
    [|vm_compute in E; discriminate E ..].
  exists res, w'. split; [reflexivity|].
  exact (update_deterministic plain_step (a2c (1 # 2)) (world [7; 7])
           (world [0; 0]) eq_refl eq_refl eq_refl eq_refl E).
Defined.

Lemma update_reads_hidden_slot_0_witness :
  exists res w1' w2',
    update plain_step (a2c (1 # 2)) (world [0; 0]) = Ok (res, w1') /\
    update plain_step (a2c (1 # 2)) (world_later_hidden [0; 0]) = Ok (res, w2') /\
    parameters w2' = parameters w1'.
Proof.
  destruct (update plain_step (a2c (1 # 2)) (world [0; 0])) as [[res w1']| |] eqn:E;
    [|vm_compute in E; discriminate E ..].
  destruct (update_reads_hidden_slot_0 plain_step (a2c (1 # 2)) (world [0; 0])
              (world_later_hidden [0; 0])
              eq_refl eq_refl eq_refl eq_refl eq_refl
              (conj eq_refl (conj eq_refl eq_refl)) eq_refl eq_refl eq_refl E)
    as (w2' & H1 & H2 & _).
  exists res, w1', w2'. split; [reflexivity|]. split; assumption.
Defined.

Lemma test_case_construction_uses_defaults_witness :
  length declaration_with_defaults = 6%nat /\
  exists a, construct declaration_with_defaults linear_policy test_case_arguments = Some a /\
            max_grad_norm a = 1 # 2.
Proof.
  split; [reflexivity|].
  destruct (construct declaration_with_defaults linear_policy test_case_arguments)
    as [a|] eqn:E; [|vm_compute in E; discriminate E].
  exists a. split; [reflexivity|].
  destruct (proj2 (test_case_construction_uses_defaults declaration_with_defaults
                     linear_policy eq_refl) a E)
    as (e & al & m & _ & _ & Hm & ->).
  cbn in Hm. inversion Hm. reflexivity.
Defined.

(** C9, as stated, against the code: were all six parameters required, the
    construction at line 77 of the test would pass too few arguments. *)
Lemma all_required_rejects_test_case :
  length (test_case_arguments (F := Q)) = 3%nat /\
  construct all_required linear_policy test_case_arguments = None /\
  construct declaration_with_defaults linear_policy test_case_arguments <> None.
Proof.
  split; [reflexivity|]. split; [reflexivity|]. discriminate.
Qed.

(** C1 at a concrete call, [max_grad_norm = 1/2].  The gradient [update]
    leaves in the [.grad] of the parameters, and steps with, is [[2; 0]], of
    norm 2: it has not been brought within [max_grad_norm].  Under the plain
    gradient step that stands in for the optimizer here, the first parameter
    moves by [lr * 2] from 1 to 3/4. *)
Theorem update_steps_with_unclipped_gradient :
  match update plain_step (a2c (1 # 2)) (world [0; 0]) with
  | Ok (_, w') =>
    grads w' = [2; 0] /\
    within_norm (1 # 2) (grads w') = false /\
    parameters w' = [3 # 4; 1]
  | _ => False
  end.
Proof. vm_compute. repeat split. Qed.

(** Other values, the same log-probabilities: the value loss changes (2
    against 23/2), and in both runs the action loss sends a gradient to the
    log-probabilities alone. *)
Example perturbing_values_changes_value_loss :
  match update_run plain_step (a2c (1 # 2)) (world [0; 0]),
        update_run plain_step (a2c (1 # 2)) world_other_values with
  | Ok (fr1, _), Ok (fr2, _) =>
    data (action_log_probs fr1) = data (action_log_probs fr2) /\
    data (value_loss fr1) = [2] /\
    data (value_loss fr2) = [23 # 2] /\
    map fst (back (action_loss fr1) [1]) = [1%nat] /\
    map fst (back (action_loss fr2) [1]) = [1%nat]
  | _, _ => False
  end.
Proof. vm_compute. repeat split. Qed.

End Checks.

(** * The further statements at the concrete instance *)

Module MoreChecks.

Import Example.
#[local] Open Scope Q_scope.

Lemma linear_policy_keeps_contract (N P : Z) :
  policy_shaped linear_policy [1; 1] N P [1%Z] 1.
Proof.
  intros o h m a Ho _ _ _. cbn. rewrite Ho. cbn.
  do 4 eexists. split; reflexivity.
Defined.

Lemma storage_no_steps_is_shaped : storage_shaped storage_no_steps 0 2 [1%Z] 1 1.
Proof.
  constructor; try reflexivity; try lia. repeat constructor.
Defined.

Lemma update_ignores_last_slot_witness :
  exists res w1' w2',
    update plain_step (a2c (1 # 2)) (world_of storage) = Ok (res, w1') /\
    update plain_step (a2c (1 # 2)) (world_of storage_other_last) = Ok (res, w2') /\
    parameters w2' = parameters w1'.
Proof.
  destruct (update plain_step (a2c (1 # 2)) (world_of storage))
    as [[res w1']| |] eqn:E; [|vm_compute in E; discriminate E ..].
  destruct (update_ignores_last_slot plain_step (a2c (1 # 2)) (world_of storage)
              (world_of storage_other_last)
              (conj eq_refl (conj eq_refl eq_refl))
              (conj eq_refl (conj eq_refl eq_refl))
              (conj eq_refl (conj eq_refl eq_refl))
              eq_refl eq_refl eq_refl eq_refl eq_refl eq_refl E)
    as (w2' & H1 & H2 & _).
  exists res, w1', w2'. split; [reflexivity|]. split; assumption.
Defined.

Lemma update_reads_sizes_of_rewards_witness :
  exists res w1' w2',
    update plain_step (a2c (1 # 2)) (world_of storage) = Ok (res, w1') /\
    update plain_step (a2c (1 # 2)) (world_of storage_other_rewards) = Ok (res, w2') /\
    parameters w2' = parameters w1'.
Proof.
  destruct (update plain_step (a2c (1 # 2)) (world_of storage))
    as [[res w1']| |] eqn:E; [|vm_compute in E; discriminate E ..].
  destruct (update_reads_sizes_of_rewards plain_step (a2c (1 # 2)) (world_of storage)
              (world_of storage_other_rewards)
              eq_refl eq_refl eq_refl eq_refl eq_refl eq_refl eq_refl eq_refl eq_refl E)
    as (w2' & H1 & H2 & _).
  exists res, w1', w2'. split; [reflexivity|]. split; assumption.
Defined.

Lemma diagnostics_independent_of_optimizer_witness :
  exists res w1' w2',
    update plain_step (a2c (1 # 2)) (world [7; 7]) = Ok (res, w1') /\
    update idle_step (A2C_new linear_policy 1 (1 # 2) 3 1 1 0) (world_of storage)
    = Ok (res, w2') /\
    grads w2' = grads w1'.
Proof.
  destruct (update plain_step (a2c (1 # 2)) (world [7; 7]))
    as [[res w1']| |] eqn:E; [|vm_compute in E; discriminate E ..].
  destruct (diagnostics_independent_of_optimizer plain_step idle_step (a2c (1 # 2))
              (A2C_new linear_policy 1 (1 # 2) 3 1 1 0) (world [7; 7]) (world_of storage)
              eq_refl eq_refl eq_refl eq_refl eq_refl eq_refl E)
    as (res2 & w2' & H1 & H2 & _ & _ & H3).
  exists res, w1', w2'. split; [reflexivity|].
  rewrite <- H3; [split; assumption|].
  vm_compute in E. injection E as _ <-. reflexivity.
Defined.

Lemma hidden_batch_is_slot_0_witness :
  exists fr w',
    update_run plain_step (a2c (1 # 2)) (world_of storage_later_hidden) = Ok (fr, w') /\
    sizes (hidden_batch fr) = [2; 1]%Z /\
    data (hidden_batch fr) = [0; 0].
Proof.
  destruct (update_run plain_step (a2c (1 # 2)) (world_of storage_later_hidden))
    as [[fr w']| |] eqn:E; [|vm_compute in E; discriminate E ..].
  exists fr, w'. split; [reflexivity|].
  exact (hidden_batch_is_slot_0 plain_step _ _ (T := 2%Z) (P := 2%Z) (H := 1%Z) E
           eq_refl eq_refl ltac:(lia) ltac:(lia) ltac:(lia)).
Defined.


Lemma empty_rollout_divides_by_zero_witness :
  exists w' en,
    update plain_step (a2c (1 # 2)) (world_of storage_no_steps) =
    Ok ([ {| name := "Value loss"; value := fdiv (fsum []) (of_Z 0) |};
          {| name := "Action loss"; value := fneg (fdiv (fsum []) (of_Z 0)) |};
          {| name := "Entropy"; value := en |} ], w').
Proof.
  destruct (empty_rollout_divides_by_zero plain_step (a2c (1 # 2))
              (world_of storage_no_steps) storage_no_steps_is_shaped eq_refl
              (linear_policy_keeps_contract (N := (0 * 2)%Z) (P := 2%Z)) eq_refl)
    as (w' & fr & en & _ & _ & H).
  exists w', en. exact H.
Defined.

Lemma one_value_policy_miscounts :
  policy_returns one_value_policy [1; 1] (2 * 2) 2 [1%Z] 1 (miscounted (2 * 2)).
Proof.
  intros o h m a Ho _ _ _. cbn. rewrite Ho. cbn.
  eexists. split; [reflexivity|].
  do 5 eexists. split; [reflexivity|]. left. discriminate.
Defined.

Lemma update_throws_on_miscounted_outputs_witness :
  update plain_step (A2C_new one_value_policy 1 (1 # 2) (1 # 8) 0 0 (1 # 2))
         (world_of storage) = Throws.
Proof.
  exact (update_throws_on_miscounted_outputs plain_step
           (A2C_new one_value_policy 1 (1 # 2) (1 # 8) 0 0 (1 # 2)) (world_of storage)
           Checks.storage_is_shaped eq_refl one_value_policy_miscounts).
Defined.

Lemma no_entropy_policy_returns_two :
  policy_returns no_entropy_policy [1; 1] (2 * 2) 2 [1%Z] 1 (without_entropy (2 * 2)).
Proof.
  intros o h m a Ho _ _ _. cbn. rewrite Ho. cbn.
  eexists. split; [reflexivity|]. do 2 eexists. reflexivity.
Defined.

Lemma update_reads_past_two_outputs_witness :
  update plain_step (A2C_new no_entropy_policy 1 (1 # 2) (1 # 8) 0 0 (1 # 2))
         (world_of storage) = Unknown.
Proof.
  exact (update_reads_past_two_outputs plain_step
           (A2C_new no_entropy_policy 1 (1 # 2) (1 # 8) 0 0 (1 # 2)) (world_of storage)
           Checks.storage_is_shaped eq_refl no_entropy_policy_returns_two).
Defined.

Lemma observations_need_two_dimensions_witness :
  update plain_step (a2c (1 # 2)) (world_of storage_flat_observations) = Unknown.
Proof.
  exact (observations_need_two_dimensions plain_step (a2c (1 # 2))
           (world_of storage_flat_observations) ltac:(cbn; lia)).
Defined.

Lemma reward_is_selected_observation_entry_witness :
  exists r : Tensor (F := Q),
    rewards_of [0; 1]%Z 0 = Ok r /\ data r = [1; 0].
Proof.
  destruct (rewards_of (F := Q) [0; 1]%Z 0) as [r| |] eqn:E;
    [|vm_compute in E; discriminate E ..].
  exists r. split; [reflexivity|].
  destruct (@reward_is_selected_observation_entry Q QOps true 0%Z 1%Z _ _ r eq_refl E
              ltac:(lia) ltac:(lia)) as [_ H].
  exact H.
Defined.

End MoreChecks.
